(** * Portfolio snapshot backfill: position ledger, price oracle and daily valuation

    A shallow embedding of [scripts/calculate-snapshots.py] and a verification
    of the properties its specification states about it.

    Modelling conventions.
    - Python [float] values are modelled by exact rationals ([Q], compared
      with [==]): a statement over this model is a statement of exact
      arithmetic.  Where the rounding of IEEE doubles makes the program
      differ from it, the position update is modelled a second time over
      binary64 numbers (module [F64]) and the difference is shown there.
    - Python exceptions are modelled by the error type [pyresult]; a division
      raises [ZeroDivisionError] on a zero divisor, a subscript on a missing
      key raises [KeyError], and so on.
    - The constant dictionaries [HISTORICAL_PRICES] and [FUND_TICKER_MAP] are
      finite maps ([gmap]); the dictionaries whose iteration order is
      observable ([positions], [tx_by_date]) are insertion-ordered
      association lists ([Dict]).
    - Warnings printed to [stderr] and the progress lines printed to [stdout]
      are not part of the model. *)

From Stdlib Require Import Floats.PrimFloat.
From Stdlib Require Import QArith Qabs Qround Qminmax Lqa ZArith Lia.
From Stdlib Require Import String Ascii List Permutation.
From stdpp Require Import gmap strings.
Import ListNotations.
Set Warnings "-inexact-float".
Local Open Scope string_scope.
Local Open Scope list_scope.

(* ================================================================== *)
(** ** Python runtime: exceptions, numbers and built-ins               *)
(* ================================================================== *)

Module Py.

Inductive exn : Type :=
| ZeroDivisionError
| KeyError
| IndexError
| ValueError.

Inductive pyresult (A : Type) : Type :=
| Ok (a : A)
| Raise (e : exn).

Arguments Ok {A} a.
Arguments Raise {A} e.

#[global] Instance pyresult_ret : MRet pyresult := fun A a => Ok a.

#[global] Instance pyresult_bind : MBind pyresult := fun A B k m =>
  match m with
  | Ok a => k a
  | Raise e => Raise e
  end.

(** A [for] loop whose body may raise, threading the loop state. *)
Fixpoint for_each {A S : Type} (body : S -> A -> pyresult S) (l : list A) (s : S)
  : pyresult S :=
  match l with
  | [] => Ok s
  | a :: l' => s' ← body s a; for_each body l' s'
  end.

(** [x < y] on numbers. *)
Definition Qltb (x y : Q) : bool :=
  (Qnum x * QDen y <? Qnum y * QDen x)%Z.

(** [max(a, b)]: the first argument unless the second is strictly larger. *)
Definition py_max (a b : Q) : Q := if Qltb a b then b else a.

(** [min(a, b)]: the first argument unless the second is strictly smaller. *)
Definition py_min (a b : Q) : Q := if Qltb b a then b else a.

(** [a / b] raises on a zero divisor. *)
Definition py_div (a b : Q) : pyresult Q :=
  if Qeq_bool b 0 then Raise ZeroDivisionError else Ok (a / b)%Q.

(** Nearest integer, ties to the even neighbour. *)
Definition round_half_even (x : Q) : Z :=
  let f := Qfloor x in
  match (x - inject_Z f ?= 1 # 2)%Q with
  | Lt => f
  | Gt => (f + 1)%Z
  | Eq => if Z.even f then f else (f + 1)%Z
  end.

(** [round(x, ndigits)] for [ndigits >= 0]. *)
Definition py_round (x : Q) (ndigits : Z) : Q :=
  let scale := inject_Z (10 ^ ndigits) in
  (inject_Z (round_half_even (x * scale)) / scale)%Q.

End Py.
Import Py.



(* ================================================================== *)
(** ** The [datetime] library, as far as the script uses it            *)
(* ================================================================== *)

(** Only [strptime] and [strftime] with the format ['%Y-%m-%d'], the
    comparison [<=] and the addition of [timedelta(days=1)] occur.  The time
    of day is midnight throughout and is left out. *)
Module Datetime.

Record datetime : Type := mk_datetime { year : Z; month : Z; day : Z }.

Definition is_leap (y : Z) : bool :=
  ((y mod 4 =? 0) && (negb (y mod 100 =? 0) || (y mod 400 =? 0)))%Z.

Definition days_in_month (y m : Z) : Z :=
  if (m =? 2)%Z then (if is_leap y then 29 else 28)%Z
  else if ((m =? 4) || (m =? 6) || (m =? 9) || (m =? 11))%Z then 30%Z
  else 31%Z.

Definition digit_of (c : ascii) : option Z :=
  let n := Z.of_N (N_of_ascii c) in
  if ((48 <=? n) && (n <=? 57))%Z then Some (n - 48)%Z else None.

Definition char_of_digit (d : Z) : ascii := ascii_of_N (Z.to_N (48 + d)).

Definition one_nonzero (s : list ascii) : option (Z * list ascii) :=
  match s with
  | c :: rest =>
      match digit_of c with
      | Some d => if (1 <=? d)%Z then Some (d, rest) else None
      | None => None
      end
  | [] => None
  end.

Definition two_digits (s : list ascii) : option (Z * Z * list ascii) :=
  match s with
  | c1 :: c2 :: rest =>
      match digit_of c1, digit_of c2 with
      | Some d1, Some d2 => Some (d1, d2, rest)
      | _, _ => None
      end
  | _ => None
  end.

(** [%Y]: exactly four digits. *)
Definition parse_Y (s : list ascii) : option (Z * list ascii) :=
  match two_digits s with
  | Some (a, b, rest) =>
      match two_digits rest with
      | Some (c, d, rest') => Some (1000 * a + 100 * b + 10 * c + d, rest')%Z
      | None => None
      end
  | None => None
  end.

(** [%m]: [1[0-2]|0[1-9]|[1-9]], alternatives tried from the left. *)
Definition parse_m (s : list ascii) : option (Z * list ascii) :=
  match two_digits s with
  | Some (d1, d2, rest) =>
      if ((d1 =? 1) && (d2 <=? 2))%Z then Some (10 + d2, rest)%Z
      else if ((d1 =? 0) && (1 <=? d2))%Z then Some (d2, rest)
      else one_nonzero s
  | None => one_nonzero s
  end.

(** [%d]: [3[01]|[12]\d|0[1-9]|[1-9]| [1-9]], alternatives tried from the
    left. *)
Definition parse_d (s : list ascii) : option (Z * list ascii) :=
  let short :=
    match one_nonzero s with
    | Some r => Some r
    | None =>
        match s with
        | " "%char :: rest => one_nonzero rest
        | _ => None
        end
    end in
  match two_digits s with
  | Some (d1, d2, rest) =>
      if ((d1 =? 3) && (d2 <=? 1))%Z then Some (30 + d2, rest)%Z
      else if ((d1 =? 1) || (d1 =? 2))%Z then Some (10 * d1 + d2, rest)%Z
      else if ((d1 =? 0) && (1 <=? d2))%Z then Some (d2, rest)
      else short
  | None => short
  end.

(** [datetime.strptime(s, '%Y-%m-%d')]: the whole string has to match, and
    the fields have to form a date of the calendar. *)
Definition strptime (s : string) : pyresult datetime :=
  match parse_Y (list_ascii_of_string s) with
  | Some (y, "-"%char :: r1) =>
      match parse_m r1 with
      | Some (m, "-"%char :: r2) =>
          match parse_d r2 with
          | Some (d, []) =>
              if ((1 <=? y) && (d <=? days_in_month y m))%Z
              then Ok (mk_datetime y m d)
              else Raise ValueError
          | _ => Raise ValueError
          end
      | _ => Raise ValueError
      end
  | _ => Raise ValueError
  end.

Definition pad2 (n : Z) : list ascii :=
  [char_of_digit (n / 10); char_of_digit (n mod 10)].

Definition pad4 (n : Z) : list ascii :=
  [char_of_digit (n / 1000); char_of_digit ((n / 100) mod 10);
   char_of_digit ((n / 10) mod 10); char_of_digit (n mod 10)].

(** [dt.strftime('%Y-%m-%d')]. *)
Definition strftime (dt : datetime) : string :=
  string_of_list_ascii
    (pad4 (year dt) ++ "-"%char :: pad2 (month dt) ++ "-"%char :: pad2 (day dt)).

(** [a <= b]. *)
Definition le (a b : datetime) : bool :=
  ((year a <? year b)
   || ((year a =? year b)
       && ((month a <? month b)
           || ((month a =? month b) && (day a <=? day b)))))%Z.

(** [dt + timedelta(days=1)].  The script only adds a day to dates that are
    not after its end date, far from [datetime.max]. *)
Definition next_day (dt : datetime) : datetime :=
  if (day dt <? days_in_month (year dt) (month dt))%Z
  then mk_datetime (year dt) (month dt) (day dt + 1)
  else if (month dt <? 12)%Z
       then mk_datetime (year dt) (month dt + 1) 1
       else mk_datetime (year dt + 1) 1 1.

(** A measure that [next_day] increases strictly and that is monotone for
    [le]; it bounds the number of iterations of the date loop. *)
Definition rank (dt : datetime) : Z := (year dt * 372 + month dt * 31 + day dt)%Z.

End Datetime.
Import Datetime.


(* ================================================================== *)
(** ** Insertion-ordered dictionaries with string keys                 *)
(* ================================================================== *)

Module Dict.

Definition dict (V : Type) : Type := list (string * V).

(** [d.get(k)] *)
Fixpoint get {V : Type} (d : dict V) (k : string) : option V :=
  match d with
  | [] => None
  | (k', v) :: d' => if String.eqb k' k then Some v else get d' k
  end.

(** [k in d] *)
Definition contains {V : Type} (d : dict V) (k : string) : bool :=
  match get d k with
  | Some _ => true
  | None => false
  end.

(** [d[k]] *)
Definition getitem {V : Type} (d : dict V) (k : string) : pyresult V :=
  match get d k with
  | Some v => Ok v
  | None => Raise KeyError
  end.

(** [d[k] = v]: an existing key keeps its place, a new key goes last. *)
Fixpoint set {V : Type} (d : dict V) (k : string) (v : V) : dict V :=
  match d with
  | [] => [(k, v)]
  | (k', v') :: d' =>
      if String.eqb k' k then (k', v) :: d' else (k', v') :: set d' k v
  end.

Definition keys {V : Type} (d : dict V) : list string := map fst d.

Definition values {V : Type} (d : dict V) : list V := map snd d.

(** [d[k]] on a [defaultdict(list)]. *)
Definition defaultdict_get {A : Type} (d : dict (list A)) (k : string) : list A :=
  match get d k with
  | Some l => l
  | None => []
  end.

End Dict.

(** [sorted] on strings (insertion sort; code-point order). *)
Fixpoint insert_sorted (x : string) (l : list string) : list string :=
  match l with
  | [] => [x]
  | y :: l' => if String.leb x y then x :: l else y :: insert_sorted x l'
  end.

Definition sorted (l : list string) : list string :=
  fold_right insert_sorted [] l.

(* ================================================================== *)
(** ** Price oracle                                                    *)
(* ================================================================== *)

Definition VTI_prices : list (string * Q) :=
  [ ("2025-09-02", 315.99%Q); ("2025-09-03", 317.33%Q); ("2025-09-04", 320.14%Q);
    ("2025-09-05", 319.55%Q); ("2025-09-08", 320.57%Q); ("2025-09-09", 320.98%Q);
    ("2025-09-10", 321.80%Q); ("2025-09-11", 324.78%Q); ("2025-09-12", 324.31%Q);
    ("2025-09-15", 325.89%Q); ("2025-09-16", 325.45%Q); ("2025-09-17", 325.16%Q);
    ("2025-09-18", 327.21%Q); ("2025-09-19", 328.44%Q); ("2025-09-22", 329.86%Q);
    ("2025-09-23", 328.09%Q); ("2025-09-24", 326.89%Q); ("2025-09-25", 325.14%Q);
    ("2025-09-26", 327.18%Q); ("2025-09-29", 327.10%Q); ("2025-09-30", 328.17%Q);
    ("2025-10-01", 329.31%Q); ("2025-10-02", 329.79%Q); ("2025-10-03", 329.97%Q);
    ("2025-10-06", 331.21%Q); ("2025-10-07", 329.62%Q); ("2025-10-08", 331.81%Q);
    ("2025-10-09", 330.66%Q); ("2025-10-10", 321.80%Q); ("2025-10-13", 326.93%Q);
    ("2025-10-14", 326.83%Q); ("2025-10-15", 328.38%Q); ("2025-10-16", 325.77%Q);
    ("2025-10-17", 327.30%Q); ("2025-10-20", 330.95%Q); ("2025-10-21", 330.91%Q);
    ("2025-10-22", 328.90%Q); ("2025-10-23", 331.01%Q); ("2025-10-24", 333.71%Q);
    ("2025-10-27", 337.43%Q); ("2025-10-28", 338.51%Q) ].

Definition QQQM_prices : list (string * Q) :=
  [ ("2025-09-02", 232.85%Q); ("2025-09-03", 234.63%Q); ("2025-09-04", 236.79%Q);
    ("2025-09-05", 237.15%Q); ("2025-09-08", 238.28%Q); ("2025-09-09", 238.99%Q);
    ("2025-09-10", 239.06%Q); ("2025-09-11", 240.46%Q); ("2025-09-12", 241.50%Q);
    ("2025-09-15", 243.60%Q); ("2025-09-16", 243.38%Q); ("2025-09-17", 242.89%Q);
    ("2025-09-18", 245.12%Q); ("2025-09-19", 246.79%Q); ("2025-09-22", 247.90%Q);
    ("2025-09-23", 246.25%Q); ("2025-09-24", 245.39%Q); ("2025-09-25", 244.33%Q);
    ("2025-09-26", 245.37%Q); ("2025-09-29", 246.48%Q); ("2025-09-30", 247.12%Q);
    ("2025-10-01", 248.33%Q); ("2025-10-02", 249.33%Q); ("2025-10-03", 248.32%Q);
    ("2025-10-06", 250.17%Q); ("2025-10-07", 248.85%Q); ("2025-10-08", 251.71%Q);
    ("2025-10-09", 251.41%Q); ("2025-10-10", 242.67%Q); ("2025-10-13", 247.83%Q);
    ("2025-10-14", 246.21%Q); ("2025-10-15", 247.88%Q); ("2025-10-16", 247.00%Q);
    ("2025-10-17", 248.61%Q); ("2025-10-20", 251.76%Q); ("2025-10-21", 251.69%Q);
    ("2025-10-22", 249.26%Q); ("2025-10-23", 251.39%Q); ("2025-10-24", 254.02%Q);
    ("2025-10-27", 258.58%Q); ("2025-10-28", 261.02%Q) ].

Definition SCHD_prices : list (string * Q) :=
  [ ("2025-09-02", 27.84%Q); ("2025-09-03", 27.60%Q); ("2025-09-04", 27.69%Q);
    ("2025-09-05", 27.64%Q); ("2025-09-08", 27.44%Q); ("2025-09-09", 27.45%Q);
    ("2025-09-10", 27.50%Q); ("2025-09-11", 27.72%Q); ("2025-09-12", 27.48%Q);
    ("2025-09-15", 27.34%Q); ("2025-09-16", 27.42%Q); ("2025-09-17", 27.47%Q);
    ("2025-09-18", 27.45%Q); ("2025-09-19", 27.33%Q); ("2025-09-22", 27.25%Q);
    ("2025-09-23", 27.40%Q); ("2025-09-24", 27.16%Q); ("2025-09-25", 26.99%Q);
    ("2025-09-26", 27.21%Q); ("2025-09-29", 27.10%Q); ("2025-09-30", 27.30%Q);
    ("2025-10-01", 27.53%Q); ("2025-10-02", 27.34%Q); ("2025-10-03", 27.41%Q);
    ("2025-10-06", 27.34%Q); ("2025-10-07", 27.28%Q); ("2025-10-08", 27.18%Q);
    ("2025-10-09", 27.00%Q); ("2025-10-10", 26.54%Q); ("2025-10-13", 26.63%Q);
    ("2025-10-14", 26.87%Q); ("2025-10-15", 26.78%Q); ("2025-10-16", 26.57%Q);
    ("2025-10-17", 26.79%Q); ("2025-10-20", 26.99%Q); ("2025-10-21", 27.07%Q);
    ("2025-10-22", 26.99%Q); ("2025-10-23", 27.03%Q); ("2025-10-24", 27.03%Q);
    ("2025-10-27", 27.12%Q); ("2025-10-28", 27.03%Q) ].

Definition DES_prices : list (string * Q) :=
  [ ("2025-09-02", 33.82%Q); ("2025-09-03", 33.89%Q); ("2025-09-04", 34.36%Q);
    ("2025-09-05", 34.38%Q); ("2025-09-08", 34.28%Q); ("2025-09-09", 33.91%Q);
    ("2025-09-10", 33.86%Q); ("2025-09-11", 34.49%Q); ("2025-09-12", 34.07%Q);
    ("2025-09-15", 34.07%Q); ("2025-09-16", 33.97%Q); ("2025-09-17", 33.98%Q);
    ("2025-09-18", 34.54%Q); ("2025-09-19", 34.03%Q); ("2025-09-22", 34.02%Q);
    ("2025-09-23", 34.08%Q); ("2025-09-24", 33.90%Q); ("2025-09-25", 33.57%Q);
    ("2025-09-26", 33.84%Q); ("2025-09-29", 33.65%Q); ("2025-09-30", 33.68%Q);
    ("2025-10-01", 33.70%Q); ("2025-10-02", 33.61%Q); ("2025-10-03", 33.79%Q);
    ("2025-10-06", 33.75%Q); ("2025-10-07", 33.49%Q); ("2025-10-08", 33.52%Q);
    ("2025-10-09", 33.19%Q); ("2025-10-10", 32.32%Q); ("2025-10-13", 32.91%Q);
    ("2025-10-14", 33.55%Q); ("2025-10-15", 33.50%Q); ("2025-10-16", 32.92%Q);
    ("2025-10-17", 33.03%Q); ("2025-10-20", 33.55%Q); ("2025-10-21", 33.53%Q);
    ("2025-10-22", 33.53%Q); ("2025-10-23", 33.64%Q); ("2025-10-24", 33.89%Q);
    ("2025-10-27", 33.74%Q); ("2025-10-28", 33.44%Q) ].

Definition VOO_prices : list (string * Q) :=
  [ ("2025-09-02", 588.71%Q); ("2025-09-03", 591.72%Q); ("2025-09-04", 596.59%Q);
    ("2025-09-05", 594.96%Q); ("2025-09-08", 596.50%Q); ("2025-09-09", 597.95%Q);
    ("2025-09-10", 599.68%Q); ("2025-09-11", 604.57%Q); ("2025-09-12", 604.44%Q);
    ("2025-09-15", 607.59%Q); ("2025-09-16", 606.79%Q); ("2025-09-17", 606.09%Q);
    ("2025-09-18", 608.94%Q); ("2025-09-19", 611.78%Q); ("2025-09-22", 614.76%Q);
    ("2025-09-23", 611.54%Q); ("2025-09-24", 609.50%Q); ("2025-09-25", 606.59%Q);
    ("2025-09-26", 610.16%Q); ("2025-09-29", 610.13%Q); ("2025-09-30", 612.38%Q);
    ("2025-10-01", 614.57%Q); ("2025-10-02", 615.25%Q); ("2025-10-03", 615.30%Q);
    ("2025-10-06", 617.40%Q); ("2025-10-07", 615.20%Q); ("2025-10-08", 618.77%Q);
    ("2025-10-09", 617.10%Q); ("2025-10-10", 600.51%Q); ("2025-10-13", 609.61%Q);
    ("2025-10-14", 608.75%Q); ("2025-10-15", 611.43%Q); ("2025-10-16", 607.39%Q);
    ("2025-10-17", 610.76%Q); ("2025-10-20", 617.17%Q); ("2025-10-21", 617.09%Q);
    ("2025-10-22", 613.97%Q); ("2025-10-23", 617.44%Q); ("2025-10-24", 622.55%Q);
    ("2025-10-27", 630.00%Q); ("2025-10-28", 632.72%Q) ].


Definition HISTORICAL_PRICES : gmap string (gmap string Q) :=
  list_to_map
    [ ("VTI", list_to_map VTI_prices);
      ("QQQM", list_to_map QQQM_prices);
      ("SCHD", list_to_map SCHD_prices);
      ("DES", list_to_map DES_prices);
      ("VOO", list_to_map VOO_prices) ].

Definition FUND_TICKER_MAP : gmap string string :=
  list_to_map
    [ ("VTI", "VTI");
      ("QQQM", "QQQM");
      ("SCHD", "SCHD");
      ("DES", "DES");
      ("0899 Vanguard 500 Index Fund Adm", "VOO") ].

Definition VOYA_CONVERSION_RATIO : Q := 15.577%Q.

(** The raw table price [HISTORICAL_PRICES.get(ticker, {}).get(date_str)]. *)
Definition table_price (ticker date_str : string) : option Q :=
  default ∅ (HISTORICAL_PRICES !! ticker) !! date_str.

Definition get_closing_price (fund_name date_str : string) : pyresult (option Q) :=
  match FUND_TICKER_MAP !! fund_name with
  | None => Ok None
  | Some ticker =>
      if String.eqb ticker "" then Ok None
      else
        match table_price ticker date_str with
        | None => Ok None
        | Some price =>
            if String.eqb fund_name "0899 Vanguard 500 Index Fund Adm"
            then price' ← py_div price VOYA_CONVERSION_RATIO; Ok (Some price')
            else Ok (Some price)
        end
  end.


(* ================================================================== *)
(** ** Records                                                         *)
(* ================================================================== *)

(** A row of [read_transactions]. *)
Module Tx.
Record t : Type := mk {
  date : string;
  fund : string;
  money_source : string;
  activity : string;
  units : Q;
  unit_price : Q;
  amount : Q
}.
End Tx.

(** An entry of [positions]. *)
Module Pos.
Record t : Type := mk {
  fund : string;
  account : string;
  shares : Q;
  cost_basis : Q
}.
End Pos.

(** An entry of [holdings_snapshots]. *)
Module Holding.
Record t : Type := mk {
  snapshot_date : string;
  fund : string;
  account_name : string;
  shares : Q;
  unit_price : Q;
  market_value : Q;
  cost_basis : Q;
  gain_loss : Q;
  price_source : string
}.
End Holding.

(** An entry of [portfolio_snapshots]. *)
Module Portfolio.
Record t : Type := mk {
  snapshot_date : string;
  total_market_value : Q;
  total_cost_basis : Q;
  total_gain_loss : Q;
  total_gain_loss_percent : Q;
  snapshot_source : string;
  market_status : string
}.
End Portfolio.

(* ================================================================== *)
(** ** Position ledger                                                 *)
(* ================================================================== *)

(** [key = f"{tx['fund']}||{tx['money_source']}"] *)
Definition position_key (tx : Tx.t) : string :=
  String.append (Tx.fund tx) (String.append "||" (Tx.money_source tx)).

(** [avg_cost = pos['cost_basis'] / pos['shares'] if pos['shares'] > 0 else 0] *)
Definition avg_cost (pos : Pos.t) : pyresult Q :=
  if Qltb 0 (Pos.shares pos)
  then py_div (Pos.cost_basis pos) (Pos.shares pos)
  else Ok 0%Q.

(** [cost_reduction = avg_cost * min(abs(units), pos['shares'])] *)
Definition cost_reduction (pos : Pos.t) (units : Q) : pyresult Q :=
  a ← avg_cost pos;
  Ok (a * py_min (Qabs units) (Pos.shares pos))%Q.

(** The update of [pos] by one transaction (the [if]/[elif] of the replay
    loop); [pos] is mutated in place in the script. *)
Definition update_position (pos : Pos.t) (units amount : Q) : pyresult Pos.t :=
  if Qltb 0 units then
    let purchase_cost := Qabs amount in
    Ok (Pos.mk (Pos.fund pos) (Pos.account pos)
               (Pos.shares pos + units)%Q
               (Pos.cost_basis pos + purchase_cost)%Q)
  else if Qltb units 0 && Qltb 0 (Pos.shares pos) then
    reduction ← cost_reduction pos units;
    Ok (Pos.mk (Pos.fund pos) (Pos.account pos)
               (py_max 0 (Pos.shares pos - Qabs units))%Q
               (py_max 0 (Pos.cost_basis pos - reduction))%Q)
  else Ok pos.

(** One iteration of [for tx in tx_by_date[date]]. *)
Definition apply_tx (positions : Dict.dict Pos.t) (tx : Tx.t)
  : pyresult (Dict.dict Pos.t) :=
  let key := position_key tx in
  let positions :=
    if Dict.contains positions key then positions
    else Dict.set positions key (Pos.mk (Tx.fund tx) (Tx.money_source tx) 0 0) in
  pos ← Dict.getitem positions key;
  pos' ← update_position pos (Tx.units tx) (Tx.amount tx);
  Ok (Dict.set positions key pos').

Definition replay (txs : list Tx.t) (positions : Dict.dict Pos.t)
  : pyresult (Dict.dict Pos.t) :=
  for_each apply_tx txs positions.

(* ================================================================== *)
(** ** Snapshot generator                                              *)
(* ================================================================== *)

(** The accumulators of the valuation loop of one date. *)
Record Valuation : Type := mk_valuation {
  holdings : list Holding.t;
  total_market_value : Q;
  total_cost_basis : Q
}.

(** One iteration of [for pos in positions.values()]. *)
Definition value_position (date : string) (acc : Valuation) (pos : Pos.t)
  : pyresult Valuation :=
  if Qltb (Qabs (Pos.shares pos)) 0.0001 then Ok acc
  else
    closing_price ← get_closing_price (Pos.fund pos) date;
    match closing_price with
    | None => Ok acc
    | Some closing_price =>
        let market_value := (Pos.shares pos * closing_price)%Q in
        let gain_loss := (market_value - Pos.cost_basis pos)%Q in
        Ok (mk_valuation
              (holdings acc ++
               [Holding.mk date (Pos.fund pos) (Pos.account pos) (Pos.shares pos)
                           closing_price market_value (Pos.cost_basis pos)
                           gain_loss "historical"])
              (total_market_value acc + market_value)%Q
              (total_cost_basis acc + Pos.cost_basis pos)%Q)
    end.

Definition value_positions (date : string) (positions : Dict.dict Pos.t)
  : pyresult Valuation :=
  for_each (value_position date) (Dict.values positions) (mk_valuation [] 0 0).

(** [(total_gain_loss / total_cost_basis * 100) if total_cost_basis > 0 else 0] *)
Definition gain_loss_pct (total_gain_loss total_cost_basis : Q) : pyresult Q :=
  if Qltb 0 total_cost_basis
  then q ← py_div total_gain_loss total_cost_basis; Ok (q * 100)%Q
  else Ok 0%Q.

(** The portfolio record of a date with holdings. *)
Definition portfolio_snapshot (date : string) (v : Valuation) : pyresult Portfolio.t :=
  let total_gain_loss := (total_market_value v - total_cost_basis v)%Q in
  total_gain_loss_pct ← gain_loss_pct total_gain_loss (total_cost_basis v);
  Ok (Portfolio.mk date
        (py_round (total_market_value v) 2)
        (py_round (total_cost_basis v) 2)
        (py_round total_gain_loss 2)
        (py_round total_gain_loss_pct 4)
        "backfill" "closed").

(** The state threaded through [for date in all_dates]. *)
Record State : Type := mk_state {
  positions : Dict.dict Pos.t;
  portfolio_snapshots : list Portfolio.t;
  holdings_snapshots : list Holding.t
}.

(** One iteration of [for date in all_dates]. *)
Definition process_date (tx_by_date : Dict.dict (list Tx.t)) (st : State)
  (date : string) : pyresult State :=
  positions' ← replay (Dict.defaultdict_get tx_by_date date) (positions st);
  v ← value_positions date positions';
  match holdings v with
  | [] => Ok (mk_state positions' (portfolio_snapshots st) (holdings_snapshots st))
  | _ :: _ =>
      snapshot ← portfolio_snapshot date v;
      Ok (mk_state positions'
            (portfolio_snapshots st ++ [snapshot])
            (holdings_snapshots st ++ holdings v))
  end.

(** [tx_by_date[tx['date']].append(tx)] for every transaction. *)
Definition group_by_date (transactions : list Tx.t) : Dict.dict (list Tx.t) :=
  fold_left
    (fun d tx => Dict.set d (Tx.date tx) (Dict.defaultdict_get d (Tx.date tx) ++ [tx]))
    transactions [].

(** The [while current <= end_date] loop; [fuel] bounds its iterations. *)
Fixpoint date_range (fuel : nat) (current end_date : datetime) : list string :=
  match fuel with
  | O => []
  | S fuel' =>
      if Datetime.le current end_date
      then strftime current :: date_range fuel' (next_day current) end_date
      else []
  end.

Definition all_dates_between (start_date end_date : datetime) : list string :=
  date_range (Z.to_nat (rank end_date + 1 - rank start_date)) start_date end_date.

(** What a run leaves behind: the rows written to the two CSV files, and
    whether the summary printed afterwards raised. *)
Record RunResult : Type := mk_result {
  portfolio_csv : list Portfolio.t;
  holdings_csv : list Holding.t;
  summary : pyresult unit
}.

Definition main (transactions : list Tx.t) : pyresult RunResult :=
  let tx_by_date := group_by_date transactions in
  let all_tx_dates := sorted (Dict.keys tx_by_date) in
  first_date ← match all_tx_dates with
               | d :: _ => Ok d
               | [] => Raise IndexError
               end;
  start_date ← strptime first_date;
  end_date ← strptime "2025-10-28";
  let all_dates := all_dates_between start_date end_date in
  st ← for_each (process_date tx_by_date) all_dates (mk_state [] [] []);
  Ok (mk_result (portfolio_snapshots st) (holdings_snapshots st)
        (match all_dates with
         | _ :: _ => Ok tt
         | [] => Raise IndexError
         end)).


(* ================================================================== *)
(** ** The position update over binary64 numbers                       *)
(* ================================================================== *)

(** The same [if]/[elif] of the replay loop, on the numbers the program
    computes with: IEEE binary64 with round-to-nearest-even ([float]).  The
    numbers of one position are enough here; the names and the dictionary
    are as in the model above. *)
Module F64.

Record Pos : Type := mk { shares : PrimFloat.float; cost_basis : PrimFloat.float }.

(** [a / b] raises on a zero divisor. *)
Definition py_div (a b : PrimFloat.float) : pyresult PrimFloat.float :=
  if PrimFloat.eqb b 0%float then Raise ZeroDivisionError else Ok (PrimFloat.div a b).

(** [max(a, b)]: the first argument unless the second is strictly larger. *)
Definition py_max (a b : PrimFloat.float) : PrimFloat.float :=
  if PrimFloat.ltb a b then b else a.

(** [min(a, b)]: the first argument unless the second is strictly smaller. *)
Definition py_min (a b : PrimFloat.float) : PrimFloat.float :=
  if PrimFloat.ltb b a then b else a.

Definition avg_cost (pos : Pos) : pyresult PrimFloat.float :=
  if PrimFloat.ltb 0%float (shares pos)
  then py_div (cost_basis pos) (shares pos)
  else Ok 0%float.

Definition update_position (pos : Pos) (units amount : PrimFloat.float) : pyresult Pos :=
  if PrimFloat.ltb 0%float units then
    let purchase_cost := PrimFloat.abs amount in
    Ok (mk (PrimFloat.add (shares pos) units)
           (PrimFloat.add (cost_basis pos) purchase_cost))
  else if PrimFloat.ltb units 0%float && PrimFloat.ltb 0%float (shares pos) then
    a ← avg_cost pos;
    let reduction := PrimFloat.mul a (py_min (PrimFloat.abs units) (shares pos)) in
    Ok (mk (py_max 0%float (PrimFloat.sub (shares pos) (PrimFloat.abs units)))
           (py_max 0%float (PrimFloat.sub (cost_basis pos) reduction)))
  else Ok pos.

(** The transactions addressed to one position, as pairs of [units] and
    [amount], applied in order. *)
Definition replay (txs : list (PrimFloat.float * PrimFloat.float)) (pos : Pos)
  : pyresult Pos :=
  for_each (fun p tx => update_position p (fst tx) (snd tx)) txs pos.

(** Three purchases of one unit for 0.1, 0.2 and 0.3, and the same in the
    opposite order. *)
Definition three_buys : list (PrimFloat.float * PrimFloat.float) :=
  [ (1, -0.1); (1, -0.2); (1, -0.3) ]%float.

Definition three_buys_reversed : list (PrimFloat.float * PrimFloat.float) :=
  [ (1, -0.3); (1, -0.2); (1, -0.1) ]%float.

End F64.

(* ================================================================== *)
(** ** Vocabulary of the statements                                    *)
(* ================================================================== *)

(** What the ledger maintains for every position. *)
Definition pos_ok (pos : Pos.t) : Prop :=
  (0 <= Pos.shares pos)%Q /\ (0 <= Pos.cost_basis pos)%Q
  /\ ((Pos.shares pos == 0)%Q -> (Pos.cost_basis pos == 0)%Q).

Definition ledger_ok (positions : Dict.dict Pos.t) : Prop :=
  Forall pos_ok (Dict.values positions).

(** The transactions of a list that address the position under key [k]. *)
Definition on_key (k : string) (txs : list Tx.t) : list Tx.t :=
  List.filter (fun tx => String.eqb (position_key tx) k) txs.

Definition sum_units (txs : list Tx.t) : Q :=
  fold_right (fun tx acc => Tx.units tx + acc)%Q 0%Q txs.

Definition sum_abs_amount (txs : list Tx.t) : Q :=
  fold_right (fun tx acc => Qabs (Tx.amount tx) + acc)%Q 0%Q txs.

Definition shares_at (positions : Dict.dict Pos.t) (k : string) : Q :=
  match Dict.get positions k with
  | Some pos => Pos.shares pos
  | None => 0%Q
  end.

Definition cost_basis_at (positions : Dict.dict Pos.t) (k : string) : Q :=
  match Dict.get positions k with
  | Some pos => Pos.cost_basis pos
  | None => 0%Q
  end.

(** Two ledgers that track the same keys with equal numbers. *)
Definition same_positions (d1 d2 : Dict.dict Pos.t) : Prop :=
  forall k : string,
    match Dict.get d1 k, Dict.get d2 k with
    | Some p1, Some p2 =>
        (Pos.shares p1 == Pos.shares p2)%Q /\ (Pos.cost_basis p1 == Pos.cost_basis p2)%Q
    | None, None => True
    | _, _ => False
    end.

(** Every vertical bar of a name is followed by a character that is not a
    vertical bar: the name neither contains ["||"] nor ends in ["|"]. *)
Fixpoint bars_are_inner (s : string) : bool :=
  match s with
  | EmptyString => true
  | String c s' =>
      (if Ascii.eqb c "|"
       then match s' with
            | EmptyString => false
            | String c' _ => negb (Ascii.eqb c' "|")
            end
       else true)
      && bars_are_inner s'
  end.

(** The name that is converted by [VOYA_CONVERSION_RATIO]. *)
Definition VOYA_FUND : string := "0899 Vanguard 500 Index Fund Adm".

(** [x] is [v] when written with four decimals. *)
Definition approx4 (x v : Q) : Prop := (Qabs (x - v) <= 0.00005)%Q.

(** A date of the calendar. *)
Definition valid_date (dt : datetime) : Prop :=
  (1 <= year dt /\ 1 <= month dt <= 12
   /\ 1 <= day dt <= days_in_month (year dt) (month dt))%Z.

(** The holding record of a position on a date, if it gets one: the position
    holds at least 0.0001 shares and the oracle has a price. *)
Definition holding_of (date : string) (pos : Pos.t) : option Holding.t :=
  if Qltb (Qabs (Pos.shares pos)) 0.0001 then None
  else
    match get_closing_price (Pos.fund pos) date with
    | Ok (Some closing_price) =>
        Some (Holding.mk date (Pos.fund pos) (Pos.account pos) (Pos.shares pos)
                closing_price (Pos.shares pos * closing_price)%Q (Pos.cost_basis pos)
                (Pos.shares pos * closing_price - Pos.cost_basis pos)%Q "historical")
    | _ => None
    end.

Fixpoint day_holdings (date : string) (l : list Pos.t) : list Holding.t :=
  match l with
  | [] => []
  | pos :: l' =>
      match holding_of date pos with
      | Some h => h :: day_holdings date l'
      | None => day_holdings date l'
      end
  end.

Definition sum_market_value (hs : list Holding.t) : Q :=
  fold_right (fun h acc => Holding.market_value h + acc)%Q 0%Q hs.

Definition sum_cost_basis (hs : list Holding.t) : Q :=
  fold_right (fun h acc => Holding.cost_basis h + acc)%Q 0%Q hs.

(** The holding records of one date. *)
Definition holdings_on (date : string) (hs : list Holding.t) : list Holding.t :=
  List.filter (fun h => String.eqb (Holding.snapshot_date h) date) hs.

(** The portfolio records of one date. *)
Definition portfolios_on (date : string) (ps : list Portfolio.t) : list Portfolio.t :=
  List.filter (fun p => String.eqb (Portfolio.snapshot_date p) date) ps.

(** The portfolio record [p] aggregates the holding records [hs]. *)
Definition aggregates (p : Portfolio.t) (hs : list Holding.t) : Prop :=
  let mv := sum_market_value hs in
  let cb := sum_cost_basis hs in
  (Portfolio.total_market_value p == py_round mv 2)%Q /\
  (Portfolio.total_cost_basis p == py_round cb 2)%Q /\
  (Portfolio.total_gain_loss p == py_round (mv - cb) 2)%Q /\
  ((0 < cb)%Q ->
   (Portfolio.total_gain_loss_percent p == py_round ((mv - cb) / cb * 100) 4)%Q) /\
  ((cb <= 0)%Q -> (Portfolio.total_gain_loss_percent p == 0)%Q).

(** The two output collections agree date by date: the holdings carry
    processed dates only, and a date has either no record at all or one
    portfolio record aggregating its one or more holding records. *)
Definition consistent (processed : list string)
    (ps : list Portfolio.t) (hs : list Holding.t) : Prop :=
  (forall h, In h hs -> In (Holding.snapshot_date h) processed) /\
  (forall date : string,
      (portfolios_on date ps = [] /\ holdings_on date hs = []) \/
      (exists p, portfolios_on date ps = [p] /\ holdings_on date hs <> []
                 /\ aggregates p (holdings_on date hs))).

(* ================================================================== *)
(** ** Sample runs                                                     *)
(* ================================================================== *)

(** A purchase, a partial sale, and a purchase of the converted fund on a
    Saturday, for which the table has no price. *)
Definition sample_transactions : list Tx.t :=
  [ Tx.mk "2025-10-23" "VTI" "Brokerage" "Buy" 10 300 (-3000);
    Tx.mk "2025-10-24" "VTI" "Brokerage" "Sell" (-4) 320 1280;
    Tx.mk "2025-10-25" "0899 Vanguard 500 Index Fund Adm" "Roth" "Buy" 2 40 (-80) ]%Q.

Definition sample_run : RunResult :=
  Eval vm_compute in
    match main sample_transactions with
    | Ok r => r
    | Raise _ => mk_result [] [] (Raise ValueError)
    end.



(* ================================================================== *)
(** ** Vocabulary of the further statements                            *)
(* ================================================================== *)

(** The key string that belongs to the names a position records. *)
Definition key_of (pos : Pos.t) : string :=
  String.append (Pos.fund pos) (String.append "||" (Pos.account pos)).

(** The position a transaction works on: the one stored under its key, or
    the empty position that is created for a key seen for the first time. *)
Definition position_for (positions : Dict.dict Pos.t) (tx : Tx.t) : Pos.t :=
  match Dict.get positions (position_key tx) with
  | Some pos => pos
  | None => Pos.mk (Tx.fund tx) (Tx.money_source tx) 0 0
  end.

(** The transactions of a list that carry the date string [d], in the order
    of the list. *)
Definition dated (d : string) (txs : list Tx.t) : list Tx.t :=
  List.filter (fun tx => String.eqb (Tx.date tx) d) txs.

(** What every holding record of a run satisfies. *)
Definition holding_ok (h : Holding.t) : Prop :=
  get_closing_price (Holding.fund h) (Holding.snapshot_date h)
  = Ok (Some (Holding.unit_price h)) /\
  (0 < Holding.unit_price h)%Q /\
  (0.0001 <= Holding.shares h)%Q /\
  (0 <= Holding.cost_basis h)%Q /\
  (Holding.market_value h == Holding.shares h * Holding.unit_price h)%Q /\
  (Holding.gain_loss h == Holding.market_value h - Holding.cost_basis h)%Q /\
  Holding.price_source h = "historical".

(** The invariant of the date loop behind [holding_ok]. *)
Definition run_ok (st : State) : Prop :=
  ledger_ok (positions st) /\
  Forall holding_ok (holdings_snapshots st) /\
  Forall (fun p => Portfolio.snapshot_source p = "backfill"
                   /\ Portfolio.market_status p = "closed")
         (portfolio_snapshots st).

(** Every stored position sits under the key of its own names. *)
Definition keys_match (positions : Dict.dict Pos.t) : Prop :=
  Forall (fun entry => fst entry = key_of (snd entry)) positions.

(* ================================================================== *)
(** ** Facts about the runtime model                                   *)
(* ================================================================== *)

Lemma bind_Ok {A B : Type} (a : A) (k : A -> pyresult B) : (Ok a ≫= k) = k a.
Proof. reflexivity. Qed.

Lemma Qltb_true (x y : Q) : Qltb x y = true <-> (x < y)%Q.
Proof. unfold Qltb, Qlt. apply Z.ltb_lt. Qed.

Lemma Qltb_false (x y : Q) : Qltb x y = false <-> (y <= x)%Q.
Proof. unfold Qltb, Qle. rewrite Z.ltb_ge. reflexivity. Qed.

(** Case analysis on a comparison, leaving the order fact as a hypothesis. *)
Tactic Notation "case_Qltb" constr(x) constr(y) "as" ident(E) :=
  destruct (Qltb x y) eqn:E;
  [ apply Qltb_true in E | apply Qltb_false in E ].

Lemma py_max_Qmax (a b : Q) : (py_max a b == Qmax a b)%Q.
Proof.
  unfold py_max. case_Qltb a b as E.
  - symmetry. apply Q.max_r. lra.
  - symmetry. apply Q.max_l. exact E.
Qed.

Lemma py_min_Qmin (a b : Q) : (py_min a b == Qmin a b)%Q.
Proof.
  unfold py_min. case_Qltb b a as E.
  - symmetry. apply Q.min_r. lra.
  - symmetry. apply Q.min_l. exact E.
Qed.

Lemma py_max_0_nonneg (x : Q) : (0 <= py_max 0 x)%Q.
Proof. unfold py_max. case_Qltb 0%Q x as E; lra. Qed.

Lemma py_div_nonzero (a b : Q) : ~ (b == 0)%Q -> py_div a b = Ok (a / b)%Q.
Proof.
  intros Hb. unfold py_div.
  destruct (Qeq_bool b 0) eqn:E; [ | reflexivity ].
  apply Qeq_bool_eq in E. contradiction.
Qed.

Lemma py_div_zero (a b : Q) : (b == 0)%Q -> py_div a b = Raise ZeroDivisionError.
Proof.
  intros Hb. unfold py_div. apply Qeq_eq_bool in Hb. rewrite Hb. reflexivity.
Qed.

(* ================================================================== *)
(** ** Facts about dictionaries                                        *)
(* ================================================================== *)

Section DictFacts.

Context {V : Type}.

Lemma get_set_eq (d : Dict.dict V) (k : string) (v : V) :
  Dict.get (Dict.set d k v) k = Some v.
Proof.
  induction d as [ | [k' v'] d IH ]; simpl.
  - rewrite String.eqb_refl. reflexivity.
  - destruct (String.eqb k' k) eqn:E; simpl; rewrite E; [ reflexivity | exact IH ].
Qed.

Lemma get_set_ne (d : Dict.dict V) (k k' : string) (v : V) :
  k <> k' -> Dict.get (Dict.set d k v) k' = Dict.get d k'.
Proof.
  intros Hne. induction d as [ | [k0 v0] d IH ]; simpl.
  - destruct (String.eqb_spec k k'); [ contradiction | reflexivity ].
  - destruct (String.eqb_spec k0 k) as [ -> | Hk ]; simpl.
    + destruct (String.eqb_spec k k'); [ contradiction | reflexivity ].
    + destruct (String.eqb_spec k0 k'); [ reflexivity | exact IH ].
Qed.

Lemma get_In_values (d : Dict.dict V) (k : string) (v : V) :
  Dict.get d k = Some v -> In v (Dict.values d).
Proof.
  induction d as [ | [k' v'] d IH ]; simpl; [ discriminate | ].
  destruct (String.eqb k' k).
  - intros [= ->]. left. reflexivity.
  - intros H. right. apply IH, H.
Qed.

Lemma Forall_values_set (P : V -> Prop) (d : Dict.dict V) (k : string) (v : V) :
  Forall P (Dict.values d) -> P v -> Forall P (Dict.values (Dict.set d k v)).
Proof.
  intros Hd Hv. induction d as [ | [k' v'] d IH ]; simpl.
  - constructor; [ exact Hv | constructor ].
  - inversion Hd as [ | ? ? Hv' Hd' ]; subst.
    destruct (String.eqb k' k); simpl; constructor; auto.
Qed.

Lemma getitem_contains_or_set (d : Dict.dict V) (k : string) (v : V) :
  Dict.getitem (if Dict.contains d k then d else Dict.set d k v) k
  = Ok (match Dict.get d k with Some v' => v' | None => v end).
Proof.
  unfold Dict.getitem, Dict.contains.
  destruct (Dict.get d k) eqn:E.
  - rewrite E. reflexivity.
  - rewrite get_set_eq. reflexivity.
Qed.

End DictFacts.

(* ================================================================== *)
(** ** Position ledger: single updates                                 *)
(* ================================================================== *)

Lemma avg_cost_held (pos : Pos.t) :
  (0 < Pos.shares pos)%Q ->
  avg_cost pos = Ok (Pos.cost_basis pos / Pos.shares pos)%Q.
Proof.
  intros Hs. unfold avg_cost.
  apply Qltb_true in Hs. rewrite Hs. apply Qltb_true in Hs.
  apply py_div_nonzero. lra.
Qed.

Lemma cost_reduction_held (pos : Pos.t) (units : Q) :
  (0 < Pos.shares pos)%Q ->
  cost_reduction pos units
  = Ok (Pos.cost_basis pos / Pos.shares pos * py_min (Qabs units) (Pos.shares pos))%Q.
Proof.
  intros Hs. unfold cost_reduction. rewrite (avg_cost_held _ Hs). reflexivity.
Qed.

Lemma update_position_acquire (pos : Pos.t) (units amount : Q) :
  (0 < units)%Q ->
  update_position pos units amount
  = Ok (Pos.mk (Pos.fund pos) (Pos.account pos)
               (Pos.shares pos + units)%Q (Pos.cost_basis pos + Qabs amount)%Q).
Proof.
  intros Hu. unfold update_position. apply Qltb_true in Hu. rewrite Hu. reflexivity.
Qed.

Lemma update_position_dispose (pos : Pos.t) (units amount : Q) :
  (units < 0)%Q -> (0 < Pos.shares pos)%Q ->
  update_position pos units amount
  = Ok (Pos.mk (Pos.fund pos) (Pos.account pos)
          (py_max 0 (Pos.shares pos - Qabs units))%Q
          (py_max 0 (Pos.cost_basis pos
                     - Pos.cost_basis pos / Pos.shares pos
                       * py_min (Qabs units) (Pos.shares pos)))%Q).
Proof.
  intros Hu Hs. unfold update_position.
  assert (H0 : Qltb 0 units = false) by (apply Qltb_false; lra).
  rewrite H0. apply Qltb_true in Hu. apply Qltb_true in Hs as Hs'.
  rewrite Hu, Hs'. simpl. rewrite (cost_reduction_held _ _ Hs). reflexivity.
Qed.

Lemma update_position_noop (pos : Pos.t) (units amount : Q) :
  (units <= 0)%Q -> (0 <= units \/ Pos.shares pos <= 0)%Q ->
  update_position pos units amount = Ok pos.
Proof.
  intros Hu Hno. unfold update_position.
  assert (H0 : Qltb 0 units = false) by (apply Qltb_false; exact Hu).
  rewrite H0.
  destruct Hno as [H | H]; apply Qltb_false in H; rewrite H.
  - reflexivity.
  - rewrite andb_false_r. reflexivity.
Qed.

(** The three transitions cover every case: an update never raises. *)
Lemma update_position_cases (pos : Pos.t) (units amount : Q) :
  ((0 < units)%Q /\
   update_position pos units amount
   = Ok (Pos.mk (Pos.fund pos) (Pos.account pos)
           (Pos.shares pos + units)%Q (Pos.cost_basis pos + Qabs amount)%Q))
  \/ ((units < 0)%Q /\ (0 < Pos.shares pos)%Q /\
      update_position pos units amount
      = Ok (Pos.mk (Pos.fund pos) (Pos.account pos)
              (py_max 0 (Pos.shares pos - Qabs units))%Q
              (py_max 0 (Pos.cost_basis pos
                         - Pos.cost_basis pos / Pos.shares pos
                           * py_min (Qabs units) (Pos.shares pos)))%Q))
  \/ ((units <= 0)%Q /\ (0 <= units \/ Pos.shares pos <= 0)%Q /\
      update_position pos units amount = Ok pos).
Proof.
  destruct (Qlt_le_dec 0 units) as [Hpos | Hle].
  - left. split; [ exact Hpos | apply update_position_acquire, Hpos ].
  - destruct (Qlt_le_dec units 0) as [Hneg | Hge].
    + destruct (Qlt_le_dec 0 (Pos.shares pos)) as [Hs | Hs].
      * right; left. split; [ exact Hneg | split; [ exact Hs | ] ].
        apply update_position_dispose; assumption.
      * right; right. split; [ exact Hle | split; [ right; exact Hs | ] ].
        apply update_position_noop; [ exact Hle | right; exact Hs ].
    + right; right. split; [ exact Hle | split; [ left; exact Hge | ] ].
      apply update_position_noop; [ exact Hle | left; exact Hge ].
Qed.

Lemma update_position_total (pos : Pos.t) (units amount : Q) :
  exists pos', update_position pos units amount = Ok pos'.
Proof.
  destruct (update_position_cases pos units amount) as [[_ H] | [[_ [_ H]] | [_ [_ H]]]];
    eexists; exact H.
Qed.

(** The amount of basis a disposal takes out, when the basis is not negative. *)
Lemma disposal_basis (c s u : Q) :
  (0 < s)%Q -> (0 <= c)%Q ->
  (py_max 0 (c - c / s * py_min (Qabs u) s)
   == c * (py_max 0 (s - Qabs u) / s))%Q.
Proof.
  intros Hs Hc.
  assert (Hu := Qabs_nonneg u).
  unfold py_min. case_Qltb s (Qabs u) as Hover.
  - (* more units than held: the whole basis goes *)
    assert (H1 : (c - c / s * s == 0)%Q) by (field; lra).
    unfold py_max at 2. case_Qltb 0%Q (s - Qabs u)%Q as Hrem; [ lra | ].
    unfold py_max. case_Qltb 0%Q (c - c / s * s)%Q as Hbasis; [ lra | ].
    field. lra.
  - assert (H1 : (c - c / s * Qabs u == c * ((s - Qabs u) / s))%Q) by (field; lra).
    assert (H2 : (0 <= (s - Qabs u) / s)%Q).
    { apply Qle_shift_div_l; [ exact Hs | lra ]. }
    assert (H3 : (0 <= c * ((s - Qabs u) / s))%Q) by (apply Qmult_le_0_compat; assumption).
    unfold py_max at 2. case_Qltb 0%Q (s - Qabs u)%Q as Hrem.
    + unfold py_max. case_Qltb 0%Q (c - c / s * Qabs u)%Q as Hbasis; [ exact H1 | ].
      rewrite <- H1. lra.
    + assert (Hz : (s - Qabs u == 0)%Q) by lra.
      unfold py_max. case_Qltb 0%Q (c - c / s * Qabs u)%Q as Hbasis.
      * rewrite H1, Hz in Hbasis. exfalso. revert Hbasis.
        unfold Qdiv. rewrite Qmult_0_l, Qmult_0_r. lra.
      * field. lra.
Qed.

Lemma update_position_ok (pos pos' : Pos.t) (units amount : Q) :
  pos_ok pos -> update_position pos units amount = Ok pos' -> pos_ok pos'.
Proof.
  intros (Hs & Hc & Hz).
  destruct (update_position_cases pos units amount)
    as [[Hu H] | [[Hu [Hheld H]] | [_ [_ H]]]]; rewrite H; intros [= <-].
  - assert (Ha := Qabs_nonneg amount).
    repeat split; simpl; try lra.
  - repeat split; simpl; try apply py_max_0_nonneg.
    intros Hzero. rewrite (disposal_basis _ _ units Hheld Hc), Hzero. field. lra.
  - repeat split; assumption.
Qed.

(* ================================================================== *)
(** ** Position ledger: replay                                         *)
(* ================================================================== *)

(** [apply_tx] in one equation: the position under the key, or a fresh empty
    one, is updated and stored back. *)
Lemma apply_tx_unfold (positions : Dict.dict Pos.t) (tx : Tx.t) :
  apply_tx positions tx
  = (pos' ← update_position
              (match Dict.get positions (position_key tx) with
               | Some pos => pos
               | None => Pos.mk (Tx.fund tx) (Tx.money_source tx) 0 0
               end) (Tx.units tx) (Tx.amount tx);
     Ok (Dict.set
           (if Dict.contains positions (position_key tx) then positions
            else Dict.set positions (position_key tx)
                   (Pos.mk (Tx.fund tx) (Tx.money_source tx) 0 0))
           (position_key tx) pos')).
Proof.
  unfold apply_tx. rewrite getitem_contains_or_set. reflexivity.
Qed.

Lemma empty_position_ok (f a : string) : pos_ok (Pos.mk f a 0 0).
Proof. repeat split; simpl; lra. Qed.

Lemma apply_tx_total (positions : Dict.dict Pos.t) (tx : Tx.t) :
  exists positions', apply_tx positions tx = Ok positions'.
Proof.
  rewrite apply_tx_unfold.
  destruct (update_position_total
              (match Dict.get positions (position_key tx) with
               | Some pos => pos
               | None => Pos.mk (Tx.fund tx) (Tx.money_source tx) 0 0
               end) (Tx.units tx) (Tx.amount tx)) as [pos' H].
  rewrite H. eexists. reflexivity.
Qed.

Lemma apply_tx_ok (positions positions' : Dict.dict Pos.t) (tx : Tx.t) :
  ledger_ok positions -> apply_tx positions tx = Ok positions' -> ledger_ok positions'.
Proof.
  intros Hok. rewrite apply_tx_unfold.
  set (pos := match Dict.get positions (position_key tx) with
              | Some pos => pos
              | None => Pos.mk (Tx.fund tx) (Tx.money_source tx) 0 0
              end).
  assert (Hpos : pos_ok pos).
  { subst pos. destruct (Dict.get positions (position_key tx)) eqn:E.
    - unfold ledger_ok in Hok. rewrite List.Forall_forall in Hok.
      apply Hok. eapply get_In_values, E.
    - apply empty_position_ok. }
  destruct (update_position pos (Tx.units tx) (Tx.amount tx)) as [pos' | e] eqn:Hup;
    simpl; [ | discriminate ].
  intros [= <-]. apply Forall_values_set.
  - destruct (Dict.contains positions (position_key tx)); [ exact Hok | ].
    apply Forall_values_set; [ exact Hok | apply empty_position_ok ].
  - eapply update_position_ok; eassumption.
Qed.

(** A transaction leaves the positions under other keys alone. *)
Lemma apply_tx_other (positions positions' : Dict.dict Pos.t) (tx : Tx.t) (k : string) :
  apply_tx positions tx = Ok positions' ->
  position_key tx <> k ->
  Dict.get positions' k = Dict.get positions k.
Proof.
  rewrite apply_tx_unfold.
  destruct (update_position _ _ _) as [pos' | e]; simpl; [ | discriminate ].
  intros [= <-] Hne. rewrite get_set_ne by exact Hne.
  destruct (Dict.contains positions (position_key tx)); [ reflexivity | ].
  apply get_set_ne, Hne.
Qed.

(** The position under the transaction's own key after the transaction. *)
Lemma apply_tx_same (positions positions' : Dict.dict Pos.t) (tx : Tx.t) :
  apply_tx positions tx = Ok positions' ->
  exists pos',
    Dict.get positions' (position_key tx) = Some pos' /\
    update_position
      (match Dict.get positions (position_key tx) with
       | Some pos => pos
       | None => Pos.mk (Tx.fund tx) (Tx.money_source tx) 0 0
       end) (Tx.units tx) (Tx.amount tx) = Ok pos'.
Proof.
  rewrite apply_tx_unfold.
  destruct (update_position _ _ _) as [pos' | e]; simpl; [ | discriminate ].
  intros [= <-]. exists pos'. split; [ apply get_set_eq | reflexivity ].
Qed.

Lemma replay_cons (tx : Tx.t) (txs : list Tx.t) (positions : Dict.dict Pos.t) :
  replay (tx :: txs) positions = (p ← apply_tx positions tx; replay txs p).
Proof. reflexivity. Qed.

Lemma replay_total (txs : list Tx.t) (positions : Dict.dict Pos.t) :
  exists positions', replay txs positions = Ok positions'.
Proof.
  revert positions. induction txs as [ | tx txs IH ]; intros positions.
  - exists positions. reflexivity.
  - rewrite replay_cons.
    destruct (apply_tx_total positions tx) as [p Hp]. rewrite Hp. simpl. apply IH.
Qed.

Lemma replay_ok (txs : list Tx.t) (positions positions' : Dict.dict Pos.t) :
  ledger_ok positions -> replay txs positions = Ok positions' -> ledger_ok positions'.
Proof.
  revert positions. induction txs as [ | tx txs IH ]; intros positions Hok.
  - intros [= <-]. exact Hok.
  - rewrite replay_cons.
    destruct (apply_tx positions tx) as [p | e] eqn:Hp; simpl; [ | discriminate ].
    apply IH. eapply apply_tx_ok; eassumption.
Qed.

Lemma replay_app (txs1 txs2 : list Tx.t) (positions : Dict.dict Pos.t) :
  replay (txs1 ++ txs2) positions = (p ← replay txs1 positions; replay txs2 p).
Proof.
  revert positions. induction txs1 as [ | tx txs1 IH ]; intros positions.
  - reflexivity.
  - simpl app. rewrite !replay_cons.
    destruct (apply_tx positions tx) as [p | e]; simpl; [ apply IH | reflexivity ].
Qed.

Lemma empty_ledger_ok : ledger_ok [].
Proof. constructor. Qed.

Lemma reachable_pos_ok (txs : list Tx.t) (positions : Dict.dict Pos.t) (k : string) (pos : Pos.t) :
  replay txs [] = Ok positions -> Dict.get positions k = Some pos -> pos_ok pos.
Proof.
  intros Hrun Hget.
  assert (Hok : ledger_ok positions) by (eapply replay_ok; [ apply empty_ledger_ok | exact Hrun ]).
  unfold ledger_ok in Hok. rewrite List.Forall_forall in Hok.
  apply Hok. eapply get_In_values, Hget.
Qed.

(* ================================================================== *)
(** ** The ledger claims                                               *)
(* ================================================================== *)

(** C1.  A disposal ([units < 0]) against a held position ([shares > 0],
    [cost_basis >= 0]) does not raise and leaves
    [cost_basis = max(0, c - (c/s) * min(|u|, s))] and
    [shares = max(0, s - |u|)]; with 10 shares at a basis of 3000, a disposal
    of 4 units has [avg_cost = 300] and [cost_reduction = 1200] and leaves 6
    shares at a basis of 1800. *)
Theorem disposal_formula :
  (forall (pos : Pos.t) (u amount : Q),
      (0 < Pos.shares pos)%Q -> (0 <= Pos.cost_basis pos)%Q -> (u < 0)%Q ->
      exists pos',
        update_position pos u amount = Ok pos' /\
        (Pos.cost_basis pos'
         == Qmax 0 (Pos.cost_basis pos
                    - Pos.cost_basis pos / Pos.shares pos * Qmin (Qabs u) (Pos.shares pos)))%Q /\
        (Pos.shares pos' == Qmax 0 (Pos.shares pos - Qabs u))%Q /\
        Pos.fund pos' = Pos.fund pos /\ Pos.account pos' = Pos.account pos)
  /\
  (let pos := Pos.mk "VTI" "Brokerage" 10 3000 in
   exists a r pos',
     avg_cost pos = Ok a /\ (a == 300)%Q /\
     cost_reduction pos (-4) = Ok r /\ (r == 1200)%Q /\
     update_position pos (-4) 1280 = Ok pos' /\
     (Pos.shares pos' == 6)%Q /\ (Pos.cost_basis pos' == 1800)%Q).
Proof.
  split.
  - intros pos u amount Hs _ Hu.
    eexists. split; [ apply update_position_dispose; assumption | ].
    simpl. repeat split.
    + rewrite py_max_Qmax, py_min_Qmin. reflexivity.
    + apply py_max_Qmax.
  - simpl. do 3 eexists.
    split; [ reflexivity | ]. split; [ reflexivity | ].
    split; [ reflexivity | ]. split; [ reflexivity | ].
    split; [ reflexivity | ]. split; reflexivity.
Qed.


Lemma disposal_formula_witness :
  let pos := Pos.mk "VTI" "Brokerage" 10 3000 in
  exists pos',
    update_position pos (-4) 1280 = Ok pos' /\
    (Pos.cost_basis pos'
     == Qmax 0 (Pos.cost_basis pos
                - Pos.cost_basis pos / Pos.shares pos * Qmin (Qabs (-4)) (Pos.shares pos)))%Q /\
    (Pos.shares pos' == Qmax 0 (Pos.shares pos - Qabs (-4)))%Q /\
    Pos.fund pos' = Pos.fund pos /\ Pos.account pos' = Pos.account pos.
Proof.
  intros pos.
  apply (proj1 disposal_formula pos (-4)%Q 1280%Q); simpl; reflexivity || discriminate.
Defined.

(** C2.  Whatever transactions are replayed from the empty ledger, the
    replay does not raise and every position has [shares >= 0] and
    [cost_basis >= 0] (the sequence is arbitrary, so this holds after every
    single update); a disposal of 100 units against 6 shares clamps the
    position to 0 shares and a basis of 0 without raising. *)
Theorem no_negative_positions :
  (forall txs : list Tx.t,
      exists positions,
        replay txs [] = Ok positions /\
        forall (k : string) (pos : Pos.t),
          Dict.get positions k = Some pos ->
          (0 <= Pos.shares pos)%Q /\ (0 <= Pos.cost_basis pos)%Q)
  /\
  (exists pos',
      update_position (Pos.mk "VTI" "Brokerage" 6 1800) (-100) 32000 = Ok pos' /\
      (Pos.shares pos' == 0)%Q /\ (Pos.cost_basis pos' == 0)%Q).
Proof.
  split.
  - intros txs. destruct (replay_total txs []) as [positions Hrun].
    exists positions. split; [ exact Hrun | ].
    intros k pos Hget.
    destruct (reachable_pos_ok txs positions k pos Hrun Hget) as (Hs & Hc & _).
    split; assumption.
  - eexists. split; [ reflexivity | ]. split; reflexivity.
Qed.

Lemma no_negative_positions_witness :
  let txs := [ Tx.mk "2025-09-02" "VTI" "Brokerage" "Buy" 10 300 (-3000);
               Tx.mk "2025-09-03" "VTI" "Brokerage" "Sell" (-4) 320 1280;
               Tx.mk "2025-09-04" "VTI" "Brokerage" "Sell" (-100) 320 32000 ]%Q in
  exists positions pos,
    replay txs [] = Ok positions /\
    Dict.get positions "VTI||Brokerage" = Some pos /\
    (0 <= Pos.shares pos)%Q /\ (0 <= Pos.cost_basis pos)%Q.
Proof.
  intros txs.
  destruct (proj1 no_negative_positions txs) as [positions [Hrun Hall]].
  exists positions.
  assert (Hpos : exists pos, Dict.get positions "VTI||Brokerage" = Some pos).
  { vm_compute in Hrun. injection Hrun as <-. eexists. reflexivity. }
  destruct Hpos as [pos Hget].
  exists pos. split; [ exact Hrun | ]. split; [ exact Hget | ].
  exact (Hall _ _ Hget).
Defined.

(** C3.  For a position of the ledger with [shares > 0], a disposal that
    leaves shares behind leaves the average cost per share
    [cost_basis / shares] as it was. *)
Theorem disposal_keeps_average_cost
    (txs : list Tx.t) (positions : Dict.dict Pos.t) (k : string)
    (pos pos' : Pos.t) (u amount : Q) :
  replay txs [] = Ok positions ->
  Dict.get positions k = Some pos ->
  (0 < Pos.shares pos)%Q ->
  (u < 0)%Q ->
  update_position pos u amount = Ok pos' ->
  (0 < Pos.shares pos')%Q ->
  (Pos.cost_basis pos' / Pos.shares pos' == Pos.cost_basis pos / Pos.shares pos)%Q.
Proof.
  intros Hrun Hget Hs Hu Hup Hrem.
  destruct (reachable_pos_ok txs positions k pos Hrun Hget) as (_ & Hc & _).
  rewrite (update_position_dispose pos u amount Hu Hs) in Hup.
  injection Hup as <-. simpl in *.
  rewrite (disposal_basis _ _ u Hs Hc).
  field. split; lra.
Qed.

Lemma disposal_keeps_average_cost_witness :
  let pos := Pos.mk "VTI" "Brokerage" 10 3000 in
  let pos' := Pos.mk "VTI" "Brokerage" (py_max 0 (10 - Qabs (-4))) (py_max 0 (3000 - 3000 / 10 * py_min (Qabs (-4)) 10)) in
  (Pos.cost_basis pos' / Pos.shares pos' == Pos.cost_basis pos / Pos.shares pos)%Q.
Proof.
  intros pos pos'.
  apply (disposal_keeps_average_cost
           [Tx.mk "2025-09-02" "VTI" "Brokerage" "Buy" 10 300 (-3000)]%Q
           [("VTI||Brokerage", pos)] "VTI||Brokerage" pos pos' (-4)%Q 1280%Q);
    reflexivity.
Defined.

(** C10.  In exact arithmetic, a position of the ledger that holds no shares
    carries no cost basis. *)
Theorem liquidated_position_has_no_basis
    (txs : list Tx.t) (positions : Dict.dict Pos.t) (k : string) (pos : Pos.t) :
  replay txs [] = Ok positions ->
  Dict.get positions k = Some pos ->
  (Pos.shares pos == 0)%Q ->
  (Pos.cost_basis pos == 0)%Q.
Proof.
  intros Hrun Hget Hz.
  destruct (reachable_pos_ok txs positions k pos Hrun Hget) as (_ & _ & H).
  exact (H Hz).
Qed.

Lemma liquidated_position_has_no_basis_witness :
  (Pos.cost_basis (Pos.mk "VTI" "Brokerage" 0 0) == 0)%Q.
Proof.
  apply (liquidated_position_has_no_basis
           [ Tx.mk "2025-09-02" "VTI" "Brokerage" "Buy" 10 300 (-3000);
             Tx.mk "2025-09-03" "VTI" "Brokerage" "Sell" (-4) 320 1280;
             Tx.mk "2025-09-04" "VTI" "Brokerage" "Sell" (-6) 320 1920 ]%Q
           [("VTI||Brokerage", Pos.mk "VTI" "Brokerage" 0 0)]
           "VTI||Brokerage").
  - vm_compute. reflexivity.
  - reflexivity.
  - reflexivity.
Defined.

(* ================================================================== *)
(** ** Replay of acquisitions                                          *)
(* ================================================================== *)

Lemma on_key_cons (k : string) (tx : Tx.t) (txs : list Tx.t) :
  on_key k (tx :: txs)
  = if String.eqb (position_key tx) k then tx :: on_key k txs else on_key k txs.
Proof. reflexivity. Qed.

Lemma sum_units_perm (l1 l2 : list Tx.t) :
  Permutation l1 l2 -> (sum_units l1 == sum_units l2)%Q.
Proof.
  induction 1 as [ | x l1 l2 _ IH | x y l | l1 l2 l3 _ IH1 _ IH2 ]; simpl.
  - reflexivity.
  - rewrite IH. reflexivity.
  - lra.
  - rewrite IH1. exact IH2.
Qed.

Lemma sum_abs_amount_perm (l1 l2 : list Tx.t) :
  Permutation l1 l2 -> (sum_abs_amount l1 == sum_abs_amount l2)%Q.
Proof.
  induction 1 as [ | x l1 l2 _ IH | x y l | l1 l2 l3 _ IH1 _ IH2 ]; simpl.
  - reflexivity.
  - rewrite IH. reflexivity.
  - lra.
  - rewrite IH1. exact IH2.
Qed.

Lemma on_key_perm (k : string) (l1 l2 : list Tx.t) :
  Permutation l1 l2 -> Permutation (on_key k l1) (on_key k l2).
Proof.
  induction 1 as [ | x l1 l2 _ IH | x y l | l1 l2 l3 _ IH1 _ IH2 ].
  - constructor.
  - rewrite !on_key_cons. destruct (String.eqb (position_key x) k).
    + constructor. exact IH.
    + exact IH.
  - rewrite !on_key_cons.
    destruct (String.eqb (position_key x) k), (String.eqb (position_key y) k);
      try apply Permutation_refl.
    apply perm_swap.
  - eapply Permutation_trans; eassumption.
Qed.

(** After replaying acquisitions over a ledger, every key holds what it held
    before plus the units and the absolute amounts addressed to it; a key is
    tracked afterwards exactly if it was tracked before or was addressed. *)
Lemma replay_acquisitions (txs : list Tx.t) :
  Forall (fun tx => (0 < Tx.units tx)%Q) txs ->
  forall d : Dict.dict Pos.t,
  exists d',
    replay txs d = Ok d' /\
    forall k : string,
      (shares_at d' k == shares_at d k + sum_units (on_key k txs))%Q /\
      (cost_basis_at d' k == cost_basis_at d k + sum_abs_amount (on_key k txs))%Q /\
      (Dict.get d' k = None <-> Dict.get d k = None /\ on_key k txs = []).
Proof.
  induction 1 as [ | tx txs Hu Hall IH ]; intros d.
  - exists d. split; [ reflexivity | ].
    intros k. simpl. split; [ lra | split; [ lra | tauto ] ].
  - destruct (apply_tx_total d tx) as [d1 H1].
    destruct (IH d1) as [d' [Hrun Hd']].
    exists d'. split; [ rewrite replay_cons, H1; exact Hrun | ].
    intros k. destruct (Hd' k) as (Hs & Hc & Hn).
    rewrite on_key_cons.
    destruct (String.eqb_spec (position_key tx) k) as [Hk | Hk].
    + (* the transaction addresses [k] *)
      destruct (apply_tx_same _ _ _ H1) as [p1 [Hget1 Hup]].
      rewrite update_position_acquire in Hup by exact Hu.
      injection Hup as <-. subst k.
      assert (Hs1 : (shares_at d1 (position_key tx)
                     == shares_at d (position_key tx) + Tx.units tx)%Q).
      { unfold shares_at. rewrite Hget1.
        destruct (Dict.get d (position_key tx)); simpl; lra. }
      assert (Hc1 : (cost_basis_at d1 (position_key tx)
                     == cost_basis_at d (position_key tx) + Qabs (Tx.amount tx))%Q).
      { unfold cost_basis_at. rewrite Hget1.
        destruct (Dict.get d (position_key tx)); simpl; lra. }
      simpl. rewrite Hs, Hc, Hs1, Hc1.
      split; [ lra | split; [ lra | split ] ].
      * intros Hnone. apply Hn in Hnone. rewrite Hget1 in Hnone.
        destruct Hnone; discriminate.
      * intros [_ Habs]. discriminate.
    + rewrite (apply_tx_other _ _ _ k H1 Hk) in Hn.
      assert (Hs1 : shares_at d1 k = shares_at d k)
        by (unfold shares_at; rewrite (apply_tx_other _ _ _ k H1 Hk); reflexivity).
      assert (Hc1 : cost_basis_at d1 k = cost_basis_at d k)
        by (unfold cost_basis_at; rewrite (apply_tx_other _ _ _ k H1 Hk); reflexivity).
      rewrite Hs, Hc, Hs1, Hc1. split; [ lra | split; [ lra | tauto ] ].
Qed.

Lemma on_key_In (tx : Tx.t) (txs : list Tx.t) :
  In tx txs -> on_key (position_key tx) txs <> [].
Proof.
  intros Hin Hnil.
  assert (H : In tx (on_key (position_key tx) txs)).
  { unfold on_key. apply filter_In. split; [ exact Hin | apply String.eqb_refl ]. }
  rewrite Hnil in H. exact H.
Qed.

(** C4, in exact arithmetic.  Replaying acquisitions only ([units > 0])
    from the empty ledger does not raise, and in exact (rational)
    arithmetic the position a transaction addresses ends with [cost_basis]
    the sum of the absolute amounts and [shares] the sum of the units of
    the transactions addressed to it, and replaying the same transactions
    in any other order gives the same positions.  (On binary64 numbers the
    sums are accumulated in the order of application and agree between two
    orders only up to rounding, see [acquisition_order_changes_the_basis].) *)
Theorem acquisitions_accumulate (txs : list Tx.t) :
  Forall (fun tx => (0 < Tx.units tx)%Q) txs ->
  exists positions,
    replay txs [] = Ok positions /\
    (forall tx : Tx.t,
        In tx txs ->
        exists pos,
          Dict.get positions (position_key tx) = Some pos /\
          (Pos.cost_basis pos == sum_abs_amount (on_key (position_key tx) txs))%Q /\
          (Pos.shares pos == sum_units (on_key (position_key tx) txs))%Q) /\
    (forall txs' : list Tx.t,
        Permutation txs txs' ->
        exists positions',
          replay txs' [] = Ok positions' /\ same_positions positions positions').
Proof.
  intros Hacq.
  destruct (replay_acquisitions txs Hacq []) as [positions [Hrun Hpos]].
  exists positions. split; [ exact Hrun | ]. split.
  - intros tx Hin. destruct (Hpos (position_key tx)) as (Hs & Hc & Hn).
    unfold shares_at, cost_basis_at in Hs, Hc. simpl in Hs, Hc.
    destruct (Dict.get positions (position_key tx)) as [pos | ] eqn:Hget.
    + exists pos. split; [ reflexivity | ]. split; lra.
    + exfalso. apply (on_key_In tx txs Hin). apply Hn. reflexivity.
  - intros txs' Hperm.
    assert (Hacq' : Forall (fun tx => (0 < Tx.units tx)%Q) txs').
    { rewrite List.Forall_forall in *. intros tx Hin. apply Hacq.
      eapply Permutation_in; [ apply Permutation_sym, Hperm | exact Hin ]. }
    destruct (replay_acquisitions txs' Hacq' []) as [positions' [Hrun' Hpos']].
    exists positions'. split; [ exact Hrun' | ].
    intros k. destruct (Hpos k) as (Hs & Hc & Hn). destruct (Hpos' k) as (Hs' & Hc' & Hn').
    assert (Hk := on_key_perm k _ _ Hperm).
    rewrite <- (sum_units_perm _ _ Hk) in Hs'.
    rewrite <- (sum_abs_amount_perm _ _ Hk) in Hc'.
    unfold shares_at, cost_basis_at in *. simpl in *.
    destruct (Dict.get positions k) as [p | ] eqn:Hg,
             (Dict.get positions' k) as [p' | ] eqn:Hg'.
    + split; lra.
    + destruct Hn' as [Hn' _]. destruct (Hn' eq_refl) as [_ Hnil'].
      assert (Hnil : on_key k txs = []).
      { apply Permutation_nil. apply Permutation_sym. rewrite <- Hnil'. exact Hk. }
      destruct Hn as [_ Hn]. discriminate (Hn (conj eq_refl Hnil)).
    + destruct Hn as [Hn _]. destruct (Hn eq_refl) as [_ Hnil].
      assert (Hnil' : on_key k txs' = []).
      { apply Permutation_nil. rewrite <- Hnil. exact Hk. }
      destruct Hn' as [_ Hn']. discriminate (Hn' (conj eq_refl Hnil')).
    + exact I.
Qed.

Lemma acquisitions_accumulate_witness :
  let txs := [ Tx.mk "2025-09-02" "VTI" "Brokerage" "Buy" 10 300 (-3000);
               Tx.mk "2025-09-03" "VTI" "Brokerage" "Buy" 2 310 (-620);
               Tx.mk "2025-09-03" "SCHD" "Roth" "Buy" 5 27 (-135) ]%Q in
  exists positions,
    replay txs [] = Ok positions /\
    (forall tx : Tx.t,
        In tx txs ->
        exists pos,
          Dict.get positions (position_key tx) = Some pos /\
          (Pos.cost_basis pos == sum_abs_amount (on_key (position_key tx) txs))%Q /\
          (Pos.shares pos == sum_units (on_key (position_key tx) txs))%Q) /\
    (forall txs' : list Tx.t,
        Permutation txs txs' ->
        exists positions',
          replay txs' [] = Ok positions' /\ same_positions positions positions').
Proof.
  intros txs. apply (acquisitions_accumulate txs).
  repeat constructor.
Defined.

(** C4, as stated, fails on the numbers the program computes with: three
    purchases of one unit for 0.1, 0.2 and 0.3 leave a cost basis of
    0.6000000000000001 when applied in that order and of 0.6 when applied in
    the opposite order. *)
Lemma acquisition_order_changes_the_basis :
  Permutation F64.three_buys F64.three_buys_reversed /\
  exists p p',
    F64.replay F64.three_buys (F64.mk 0 0) = Ok p /\
    F64.replay F64.three_buys_reversed (F64.mk 0 0) = Ok p' /\
    F64.shares p = F64.shares p' /\
    F64.cost_basis p = 0.6000000000000001%float /\
    F64.cost_basis p' = 0.6%float /\
    F64.cost_basis p <> F64.cost_basis p'.
Proof.
  split; [ apply (Permutation_rev F64.three_buys) | ].
  do 2 eexists.
  split; [ vm_compute; reflexivity | ].
  split; [ vm_compute; reflexivity | ].
  split; [ reflexivity | ].
  split; [ reflexivity | ].
  split; [ reflexivity | ].
  simpl. intros H.
  apply (f_equal (fun x => PrimFloat.ltb 0.6%float x)) in H.
  vm_compute in H. discriminate H.
Qed.

(** What exact arithmetic hides after a sale of everything: buying 3 units
    for 250.10 and selling 3 leaves 0 shares and, on binary64 numbers, a
    cost basis of 2.8421709430404007e-14, which the next purchase (0.001
    units for 0.34) carries along. *)
Lemma selling_out_leaves_a_residue :
  F64.replay [ (3, -250.10); (-3, 260) ]%float (F64.mk 0 0)
  = Ok (F64.mk 0 2.8421709430404007e-14) /\
  F64.replay [ (3, -250.10); (-3, 260); (0.001, -0.34) ]%float (F64.mk 0 0)
  = Ok (F64.mk 0.001 0.34000000000002845).
Proof. split; vm_compute; reflexivity. Qed.

(* ================================================================== *)
(** ** Position keys                                                   *)
(* ================================================================== *)

Lemma append_cons (c : ascii) (s t : string) :
  String.append (String c s) t = String c (String.append s t).
Proof. reflexivity. Qed.

Lemma append_nil (t : string) : String.append EmptyString t = t.
Proof. reflexivity. Qed.

Lemma string_append_assoc (a b c : string) :
  String.append (String.append a b) c = String.append a (String.append b c).
Proof.
  induction a as [ | x a IH ]; [ reflexivity | ].
  rewrite !append_cons, IH. reflexivity.
Qed.

Lemma bars_are_inner_tail (c : ascii) (s : string) :
  bars_are_inner (String c s) = true -> bars_are_inner s = true.
Proof. cbn [bars_are_inner]. intros H. apply andb_true_iff in H as [_ H]. exact H. Qed.

Lemma bar_first_is_not_inner (s : string) :
  bars_are_inner (String "|" s) = true ->
  exists c s', s = String c s' /\ c <> "|"%char.
Proof.
  cbn [bars_are_inner]. rewrite Ascii.eqb_refl.
  destruct s as [ | c s' ]; [ discriminate | ].
  intros H. apply andb_true_iff in H as [H _]. apply negb_true_iff in H.
  exists c, s'. split; [ reflexivity | ].
  intros ->. rewrite Ascii.eqb_refl in H. discriminate H.
Qed.

(** A name whose bars are inner cannot be followed by the separator in two
    ways. *)
Lemma inner_bars_split (f1 a1 f2 a2 : string) :
  bars_are_inner f1 = true -> bars_are_inner f2 = true ->
  String.append f1 (String "|" (String "|" a1))
  = String.append f2 (String "|" (String "|" a2)) ->
  f1 = f2 /\ a1 = a2.
Proof.
  revert f2. induction f1 as [ | c1 f1 IH ]; intros [ | c2 f2 ];
    rewrite ?append_cons, ?append_nil.
  - intros _ _ [= ->]. split; reflexivity.
  - intros _ Hinner [= <- Htail]. exfalso.
    destruct (bar_first_is_not_inner _ Hinner) as (c & s & -> & Hc).
    rewrite append_cons in Htail. injection Htail as Hhead _. congruence.
  - intros Hinner _ [= -> Htail]. exfalso.
    destruct (bar_first_is_not_inner _ Hinner) as (c & s & -> & Hc).
    rewrite append_cons in Htail. injection Htail as Hhead _. congruence.
  - intros H1 H2 [= -> Heq].
    destruct (IH f2 (bars_are_inner_tail _ _ H1) (bars_are_inner_tail _ _ H2) Heq)
      as [-> ->].
    split; reflexivity.
Qed.

(** A name with a bar that is not inner shares its keys with another name. *)
Lemma outer_bar_collides (f : string) :
  bars_are_inner f = false ->
  exists f' pre : string,
    f' <> f /\
    forall a : string,
      String.append f (String.append "||" a)
      = String.append f' (String.append "||" (String.append pre a)).
Proof.
  induction f as [ | c f IH ]; [ discriminate | ].
  intros Hinner.
  assert (Hstep : bars_are_inner f = false ->
                  exists f' pre : string,
                    f' <> String c f /\
                    forall a : string,
                      String.append (String c f) (String.append "||" a)
                      = String.append f' (String.append "||" (String.append pre a))).
  { intros Hf. destruct (IH Hf) as (f' & pre & Hne & Hkey).
    exists (String c f'), pre. split; [ congruence | ].
    intros a. rewrite (append_cons c f), (append_cons c f'), (Hkey a). reflexivity. }
  cbn [bars_are_inner] in Hinner.
  destruct (Ascii.eqb_spec c "|") as [-> | Hc].
  - destruct f as [ | c' f ].
    + exists EmptyString, "|". split; [ discriminate | ]. intros a. reflexivity.
    + destruct (Ascii.eqb_spec c' "|") as [-> | Hc'].
      * exists EmptyString, (String.append f "||"). split; [ discriminate | ].
        intros a. rewrite string_append_assoc. reflexivity.
      * apply Hstep. exact Hinner.
  - apply Hstep. exact Hinner.
Qed.

Lemma alias_names_have_inner_bars (fund_name ticker : string) :
  FUND_TICKER_MAP !! fund_name = Some ticker -> bars_are_inner fund_name = true.
Proof.
  assert (H : map_Forall (fun f _ => bars_are_inner f = true) FUND_TICKER_MAP).
  { apply (bool_decide_unpack _). vm_compute. reflexivity. }
  intros Hlook. exact (H _ _ Hlook).
Qed.

(** C9 fails on the code at a key collision: two transactions with
    different (instrument, account) pairs whose names contain ["||"] share
    one key, and the replay merges their shares and cost basis into one
    position, which keeps the names of the first pair. *)
Lemma key_collision_merges_pairs :
  let tx1 := Tx.mk "2025-09-02" "A" "B||C" "Buy" 1 100 (-100) in
  let tx2 := Tx.mk "2025-09-02" "A||B" "C" "Buy" 2 100 (-200) in
  (Tx.fund tx1, Tx.money_source tx1) <> (Tx.fund tx2, Tx.money_source tx2) /\
  position_key tx1 = position_key tx2 /\
  exists pos,
    replay [tx1; tx2] [] = Ok [("A||B||C", pos)] /\
    Pos.fund pos = "A" /\ Pos.account pos = "B||C" /\
    (Pos.shares pos == 3)%Q /\ (Pos.cost_basis pos == 300)%Q.
Proof.
  simpl. split; [ discriminate | ]. split; [ reflexivity | ].
  eexists. split; [ vm_compute; reflexivity | ].
  repeat split.
Qed.

(** The same collision in a run: the 2 units bought of "VTI||A", a name the
    price lookup does not know, are added to the position of "VTI" in the
    account "A||B" and written as 3 shares of VTI valued at VTI's price. *)
Lemma collided_units_are_valued_as_the_first_fund :
  let tx1 := Tx.mk "2025-10-28" "VTI" "A||B" "Buy" 1 338 (-338) in
  let tx2 := Tx.mk "2025-10-28" "VTI||A" "B" "Buy" 2 50 (-100) in
  get_closing_price "VTI||A" "2025-10-28" = Ok None /\
  exists r h,
    main [tx1; tx2] = Ok r /\
    holdings_csv r = [h] /\
    Holding.fund h = "VTI" /\ Holding.account_name h = "A||B" /\
    (Holding.shares h == 3)%Q /\ (Holding.unit_price h == 338.51)%Q /\
    (Holding.market_value h == 1015.53)%Q /\ (Holding.cost_basis h == 438)%Q.
Proof.
  simpl. split; [ vm_compute; reflexivity | ].
  do 2 eexists. split; [ vm_compute; reflexivity | ].
  split; [ reflexivity | ]. repeat split.
Qed.

(* ================================================================== *)
(** ** Price oracle                                                    *)
(* ================================================================== *)

Lemma tickers_nonempty (fund_name ticker : string) :
  FUND_TICKER_MAP !! fund_name = Some ticker -> String.eqb ticker "" = false.
Proof.
  assert (H : map_Forall (fun _ t => String.eqb t "" = false) FUND_TICKER_MAP).
  { apply (bool_decide_unpack _). vm_compute. reflexivity. }
  intros Hlook. exact (H _ _ Hlook).
Qed.

Lemma voya_ticker : FUND_TICKER_MAP !! VOYA_FUND = Some "VOO".
Proof. vm_compute. reflexivity. Qed.

Lemma ratio_nonzero : ~ (VOYA_CONVERSION_RATIO == 0)%Q.
Proof. unfold VOYA_CONVERSION_RATIO. intros H. discriminate H. Qed.

Lemma get_closing_price_voya (date_str : string) :
  get_closing_price VOYA_FUND date_str
  = Ok (option_map (fun price => price / VOYA_CONVERSION_RATIO)%Q
                   (table_price "VOO" date_str)).
Proof.
  unfold get_closing_price. rewrite voya_ticker.
  change (String.eqb "VOO" "") with false. cbv iota.
  destruct (table_price "VOO" date_str) as [price | ]; [ | reflexivity ].
  change (String.eqb VOYA_FUND "0899 Vanguard 500 Index Fund Adm") with true. cbv iota.
  rewrite (py_div_nonzero _ _ ratio_nonzero). reflexivity.
Qed.

Lemma get_closing_price_plain (fund_name ticker date_str : string) :
  fund_name <> VOYA_FUND ->
  FUND_TICKER_MAP !! fund_name = Some ticker ->
  get_closing_price fund_name date_str = Ok (table_price ticker date_str).
Proof.
  intros Hne Hlook. unfold get_closing_price.
  rewrite Hlook, (tickers_nonempty _ _ Hlook).
  destruct (table_price ticker date_str) as [price | ]; [ | reflexivity ].
  destruct (String.eqb_spec fund_name "0899 Vanguard 500 Index Fund Adm") as [Heq | _];
    [ contradiction | reflexivity ].
Qed.

Lemma get_closing_price_unknown (fund_name date_str : string) :
  FUND_TICKER_MAP !! fund_name = None ->
  get_closing_price fund_name date_str = Ok None.
Proof. intros Hlook. unfold get_closing_price. rewrite Hlook. reflexivity. Qed.

(** The oracle in one equation. *)
Lemma get_closing_price_spec (fund_name date_str : string) :
  get_closing_price fund_name date_str
  = Ok (match FUND_TICKER_MAP !! fund_name with
        | None => None
        | Some ticker =>
            option_map
              (fun price => if String.eqb fund_name VOYA_FUND
                            then (price / VOYA_CONVERSION_RATIO)%Q else price)
              (table_price ticker date_str)
        end).
Proof.
  destruct (FUND_TICKER_MAP !! fund_name) as [ticker | ] eqn:Hlook.
  - destruct (String.eqb_spec fund_name VOYA_FUND) as [-> | Hne].
    + rewrite get_closing_price_voya.
      rewrite voya_ticker in Hlook. injection Hlook as <-. reflexivity.
    + rewrite (get_closing_price_plain _ _ _ Hne Hlook).
      destruct (table_price ticker date_str); reflexivity.
  - apply get_closing_price_unknown, Hlook.
Qed.

(** C5, with the figure the division gives.  The lookup divides the table
    price by 15.577 for the name "0899 Vanguard 500 Index Fund Adm" and
    returns the table price as it is for every other name of the alias
    table; for that name on 2025-09-02 the table price is 588.71 and the
    returned price is 588.71 / 15.577, which is 37.7935 to four decimals. *)
Theorem price_conversion :
  (forall date_str : string,
      get_closing_price "0899 Vanguard 500 Index Fund Adm" date_str
      = Ok (option_map (fun price => price / 15.577)%Q (table_price "VOO" date_str)))
  /\
  (forall fund_name ticker date_str : string,
      fund_name <> "0899 Vanguard 500 Index Fund Adm" ->
      FUND_TICKER_MAP !! fund_name = Some ticker ->
      get_closing_price fund_name date_str = Ok (table_price ticker date_str))
  /\
  (table_price "VOO" "2025-09-02" = Some 588.71%Q /\
   exists price,
     get_closing_price "0899 Vanguard 500 Index Fund Adm" "2025-09-02" = Ok (Some price) /\
     (price == 588.71 / 15.577)%Q /\ approx4 price 37.7935).
Proof.
  split; [ exact get_closing_price_voya | ].
  split; [ exact get_closing_price_plain | ].
  split; [ vm_compute; reflexivity | ].
  eexists. split; [ vm_compute; reflexivity | ].
  split; [ reflexivity | ].
  unfold approx4. vm_compute. discriminate.
Qed.

Lemma price_conversion_witness :
  get_closing_price "VTI" "2025-09-02" = Ok (table_price "VTI" "2025-09-02").
Proof.
  apply (proj1 (proj2 price_conversion) "VTI" "VTI" "2025-09-02").
  - discriminate.
  - vm_compute. reflexivity.
Defined.

(** C5, as stated, fails in its figure: the price returned for the alias on
    2025-09-02 is 588.71 / 15.577, which is not 37.7840 to four decimals (it
    is larger by more than 0.009). *)
Lemma voya_price_is_not_37_7840 :
  exists price,
    get_closing_price "0899 Vanguard 500 Index Fund Adm" "2025-09-02" = Ok (Some price) /\
    (price == 588.71 / 15.577)%Q /\
    ~ approx4 price 37.7840 /\ (0.009 < price - 37.7840)%Q.
Proof.
  eexists. split; [ vm_compute; reflexivity | ].
  split; [ reflexivity | ].
  split.
  - unfold approx4. vm_compute. intros H. apply H. reflexivity.
  - vm_compute. reflexivity.
Qed.

(* ================================================================== *)
(** ** Calendar                                                        *)
(* ================================================================== *)

Lemma days_in_month_bounds (y m : Z) : (28 <= days_in_month y m <= 31)%Z.
Proof.
  unfold days_in_month.
  destruct (m =? 2)%Z; [ destruct (is_leap y); lia | ].
  destruct ((m =? 4) || (m =? 6) || (m =? 9) || (m =? 11))%Z; lia.
Qed.

Lemma digit_of_range (c : ascii) (d : Z) : digit_of c = Some d -> (0 <= d <= 9)%Z.
Proof.
  unfold digit_of.
  destruct ((48 <=? Z.of_N (N_of_ascii c)) && (Z.of_N (N_of_ascii c) <=? 57))%Z eqn:E;
    [ | discriminate ].
  intros [= <-]. apply andb_true_iff in E as [E1 E2]. lia.
Qed.

Lemma two_digits_range (s rest : list ascii) (d1 d2 : Z) :
  two_digits s = Some (d1, d2, rest) -> (0 <= d1 <= 9 /\ 0 <= d2 <= 9)%Z.
Proof.
  unfold two_digits. destruct s as [ | c1 [ | c2 s ] ]; try discriminate.
  destruct (digit_of c1) as [e1 | ] eqn:E1; [ | discriminate ].
  destruct (digit_of c2) as [e2 | ] eqn:E2; [ | discriminate ].
  intros [= <- <- <-]. split; eapply digit_of_range; eassumption.
Qed.

Lemma one_nonzero_range (s rest : list ascii) (d : Z) :
  one_nonzero s = Some (d, rest) -> (1 <= d <= 9)%Z.
Proof.
  unfold one_nonzero. destruct s as [ | c s ]; [ discriminate | ].
  destruct (digit_of c) as [e | ] eqn:E; [ | discriminate ].
  destruct (1 <=? e)%Z eqn:E1; [ | discriminate ].
  intros [= <- <-]. apply digit_of_range in E. lia.
Qed.

Lemma parse_Y_range (s rest : list ascii) (y : Z) :
  parse_Y s = Some (y, rest) -> (0 <= y <= 9999)%Z.
Proof.
  unfold parse_Y.
  destruct (two_digits s) as [[[a b] r] | ] eqn:E1; [ | discriminate ].
  destruct (two_digits r) as [[[c d] r'] | ] eqn:E2; [ | discriminate ].
  intros [= <- <-]. apply two_digits_range in E1, E2. lia.
Qed.

Lemma parse_m_range (s rest : list ascii) (m : Z) :
  parse_m s = Some (m, rest) -> (1 <= m <= 12)%Z.
Proof.
  unfold parse_m.
  destruct (two_digits s) as [[[d1 d2] r] | ] eqn:E.
  - apply two_digits_range in E.
    destruct ((d1 =? 1) && (d2 <=? 2))%Z eqn:E1.
    + intros [= <- <-]. apply andb_true_iff in E1 as [_ E1]. lia.
    + destruct ((d1 =? 0) && (1 <=? d2))%Z eqn:E2.
      * intros [= <- <-]. apply andb_true_iff in E2 as [_ E2]. lia.
      * intros H. apply one_nonzero_range in H. lia.
  - intros H. apply one_nonzero_range in H. lia.
Qed.

Lemma parse_d_range (s rest : list ascii) (d : Z) :
  parse_d s = Some (d, rest) -> (1 <= d)%Z.
Proof.
  unfold parse_d.
  assert (Hshort : match one_nonzero s with
                   | Some r => Some r
                   | None => match s with
                             | " "%char :: rest0 => one_nonzero rest0
                             | _ => None
                             end
                   end = Some (d, rest) -> (1 <= d)%Z).
  { destruct (one_nonzero s) as [[e r] | ] eqn:E.
    - intros [= <- <-]. apply one_nonzero_range in E. lia.
    - destruct s as [ | c s ]; [ discriminate | ].
      destruct (Ascii.eqb_spec c " "%char) as [-> | Hc].
      + intros H. apply one_nonzero_range in H. lia.
      + destruct c as [[] [] [] [] [] [] [] []]; try discriminate.
        contradiction Hc. reflexivity. }
  destruct (two_digits s) as [[[d1 d2] r] | ] eqn:E; [ | exact Hshort ].
  apply two_digits_range in E.
  destruct ((d1 =? 3) && (d2 <=? 1))%Z eqn:E1.
  - intros [= <- <-]. lia.
  - destruct ((d1 =? 1) || (d1 =? 2))%Z eqn:E2.
    + intros [= <- <-]. apply orb_true_iff in E2. lia.
    + destruct ((d1 =? 0) && (1 <=? d2))%Z eqn:E3.
      * intros [= <- <-]. apply andb_true_iff in E3 as [_ E3]. lia.
      * exact Hshort.
Qed.

(** [strptime] returns dates of the calendar only. *)
Lemma strptime_valid (s : string) (dt : datetime) :
  strptime s = Ok dt -> valid_date dt.
Proof.
  unfold strptime.
  destruct (parse_Y (list_ascii_of_string s)) as [[y r0] | ] eqn:EY; [ | discriminate ].
  destruct r0 as [ | c0 r1 ]; [ discriminate | ].
  destruct (Ascii.eqb_spec c0 "-"%char) as [-> | Hc0];
    [ | destruct c0 as [[] [] [] [] [] [] [] []]; try discriminate;
        contradiction Hc0; reflexivity ].
  destruct (parse_m r1) as [[m r1'] | ] eqn:EM; [ | discriminate ].
  destruct r1' as [ | c1 r2 ]; [ discriminate | ].
  destruct (Ascii.eqb_spec c1 "-"%char) as [-> | Hc1];
    [ | destruct c1 as [[] [] [] [] [] [] [] []]; try discriminate;
        contradiction Hc1; reflexivity ].
  destruct (parse_d r2) as [[d r2'] | ] eqn:ED; [ | discriminate ].
  destruct r2' as [ | ? ? ]; [ | discriminate ].
  destruct ((1 <=? y) && (d <=? days_in_month y m))%Z eqn:E; [ | discriminate ].
  intros [= <-]. apply andb_true_iff in E as [E1 E2].
  apply parse_Y_range in EY. apply parse_m_range in EM. apply parse_d_range in ED.
  unfold valid_date. simpl. lia.
Qed.

Lemma next_day_rank (dt : datetime) :
  valid_date dt -> (rank dt < rank (next_day dt))%Z.
Proof.
  intros (Hy & Hm & Hd). unfold next_day, rank.
  assert (Hb := days_in_month_bounds (year dt) (month dt)).
  destruct (day dt <? days_in_month (year dt) (month dt))%Z; simpl; [ lia | ].
  destruct (month dt <? 12)%Z eqn:E; simpl; lia.
Qed.

Lemma le_rank (a b : datetime) :
  valid_date a -> valid_date b -> Datetime.le a b = true -> (rank a <= rank b)%Z.
Proof.
  intros (Hya & Hma & Hda) (Hyb & Hmb & Hdb). unfold Datetime.le, rank.
  assert (Ha := days_in_month_bounds (year a) (month a)).
  assert (Hb := days_in_month_bounds (year b) (month b)).
  intros H. apply orb_true_iff in H as [H | H]; [ lia | ].
  apply andb_true_iff in H as [Hy H].
  apply orb_true_iff in H as [H | H]; [ lia | ].
  apply andb_true_iff in H as [Hm H]. lia.
Qed.

Lemma le_year (a b : datetime) : Datetime.le a b = true -> (year a <= year b)%Z.
Proof.
  unfold Datetime.le. intros H. apply orb_true_iff in H as [H | H]; [ lia | ].
  apply andb_true_iff in H as [Hy _]. lia.
Qed.

Lemma next_day_valid (dt : datetime) : valid_date dt -> valid_date (next_day dt).
Proof.
  intros (Hy & Hm & Hd). unfold next_day, valid_date.
  destruct (day dt <? days_in_month (year dt) (month dt))%Z eqn:E; simpl; [ lia | ].
  destruct (month dt <? 12)%Z eqn:E'; simpl.
  - assert (Hb := days_in_month_bounds (year dt) (month dt + 1)). lia.
  - assert (Hb := days_in_month_bounds (year dt + 1) 1). lia.
Qed.

Lemma char_of_digit_inj (d1 d2 : Z) :
  (0 <= d1 <= 9)%Z -> (0 <= d2 <= 9)%Z ->
  char_of_digit d1 = char_of_digit d2 -> d1 = d2.
Proof.
  intros H1 H2 Heq. unfold char_of_digit in Heq.
  apply (f_equal N_of_ascii) in Heq.
  rewrite !N_ascii_embedding in Heq by lia. lia.
Qed.

(** Distinct dates print differently (years of up to four digits). *)
Lemma strftime_inj (a b : datetime) :
  valid_date a -> valid_date b -> (year a <= 9999)%Z -> (year b <= 9999)%Z ->
  strftime a = strftime b -> a = b.
Proof.
  intros (Hya & Hma & Hda) (Hyb & Hmb & Hdb) Hya' Hyb' Heq.
  assert (Ha := days_in_month_bounds (year a) (month a)).
  assert (Hb := days_in_month_bounds (year b) (month b)).
  unfold strftime in Heq.
  apply (f_equal list_ascii_of_string) in Heq.
  rewrite !list_ascii_of_string_of_list_ascii in Heq.
  unfold pad4, pad2 in Heq. cbn [app] in Heq.
  injection Heq as Y3 Y2 Y1 Y0 M1 M0 D1 D0.
  apply char_of_digit_inj in Y3, Y2, Y1, Y0, M1, M0, D1, D0;
    try (Z.div_mod_to_equations; lia).
  destruct a as [ya ma da], b as [yb mb db]; simpl in *.
  f_equal; Z.div_mod_to_equations; lia.
Qed.

Lemma date_range_elems (fuel : nat) (e : datetime) :
  forall (cur : datetime) (s : string),
    valid_date cur ->
    In s (date_range fuel cur e) ->
    exists dt, s = strftime dt /\ valid_date dt /\ (rank cur <= rank dt)%Z
               /\ Datetime.le dt e = true.
Proof.
  induction fuel as [ | fuel IH ]; intros cur s Hv; simpl; [ contradiction | ].
  destruct (Datetime.le cur e) eqn:Hle; [ | contradiction ].
  intros [<- | Hin].
  - exists cur. repeat split; try assumption; try apply Hv. lia.
  - destruct (IH _ _ (next_day_valid _ Hv) Hin) as (dt & -> & Hdt & Hr & Hdle).
    exists dt. repeat split; try assumption; try apply Hdt.
    assert (H := next_day_rank cur Hv). lia.
Qed.

(** No date occurs twice among the dates of the loop. *)
Lemma date_range_NoDup (fuel : nat) (e : datetime) :
  (year e <= 9999)%Z ->
  forall cur : datetime, valid_date cur -> List.NoDup (date_range fuel cur e).
Proof.
  intros He. induction fuel as [ | fuel IH ]; intros cur Hv; simpl; [ constructor | ].
  destruct (Datetime.le cur e) eqn:Hle; [ | constructor ].
  constructor; [ | apply IH, next_day_valid, Hv ].
  intros Hin.
  destruct (date_range_elems _ _ _ _ (next_day_valid _ Hv) Hin) as (dt & Heq & Hdt & Hr & Hdle).
  assert (Hcur : cur = dt).
  { apply strftime_inj; try assumption.
    - apply le_year in Hle. lia.
    - apply le_year in Hdle. lia. }
  subst dt. assert (H := next_day_rank cur Hv). lia.
Qed.

(** The bound on the iterations is never what ends the loop: with more fuel
    the loop produces the same dates. *)
Lemma date_range_fuel_enough (e : datetime) (extra : nat) :
  valid_date e ->
  forall (fuel : nat) (cur : datetime),
    valid_date cur ->
    (rank e + 1 - rank cur <= Z.of_nat fuel)%Z ->
    date_range (fuel + extra) cur e = date_range fuel cur e.
Proof.
  intros He. induction fuel as [ | fuel IH ]; intros cur Hv Hfuel.
  - simpl. destruct extra as [ | extra ]; [ reflexivity | ]. simpl.
    destruct (Datetime.le cur e) eqn:Hle; [ | reflexivity ].
    apply le_rank in Hle; try assumption. lia.
  - simpl. destruct (Datetime.le cur e) eqn:Hle; [ | reflexivity ].
    f_equal. apply IH; [ apply next_day_valid, Hv | ].
    assert (H := next_day_rank cur Hv). lia.
Qed.

Lemma all_dates_between_stable (start_date end_date : datetime) (extra : nat) :
  valid_date start_date -> valid_date end_date ->
  date_range (Z.to_nat (rank end_date + 1 - rank start_date) + extra) start_date end_date
  = all_dates_between start_date end_date.
Proof.
  intros Hs He. unfold all_dates_between.
  apply date_range_fuel_enough; try assumption. lia.
Qed.

Lemma all_dates_between_NoDup (start_date end_date : datetime) :
  valid_date start_date -> (year end_date <= 9999)%Z ->
  List.NoDup (all_dates_between start_date end_date).
Proof.
  intros Hs He. unfold all_dates_between. apply date_range_NoDup; assumption.
Qed.

(* ================================================================== *)
(** ** Rounding                                                        *)
(* ================================================================== *)

Lemma round_half_even_comp (x y : Q) :
  (x == y)%Q -> round_half_even x = round_half_even y.
Proof.
  intros Hxy. unfold round_half_even.
  rewrite (Qfloor_comp _ _ Hxy).
  assert (H : (x - inject_Z (Qfloor y) ?= 1 # 2)%Q = (y - inject_Z (Qfloor y) ?= 1 # 2)%Q).
  { apply Qcompare_comp; [ rewrite Hxy; reflexivity | reflexivity ]. }
  rewrite H. reflexivity.
Qed.

Lemma py_round_comp (x y : Q) (n : Z) : (x == y)%Q -> py_round x n = py_round y n.
Proof.
  intros Hxy. unfold py_round.
  rewrite (round_half_even_comp (x * inject_Z (10 ^ n)) (y * inject_Z (10 ^ n)));
    [ reflexivity | rewrite Hxy; reflexivity ].
Qed.



(* ================================================================== *)
(** ** Valuation of one date                                           *)
(* ================================================================== *)

Lemma get_closing_price_total (fund_name date_str : string) :
  exists r, get_closing_price fund_name date_str = Ok r.
Proof. eexists. apply get_closing_price_spec. Qed.

Lemma value_position_spec (date : string) (acc : Valuation) (pos : Pos.t) :
  value_position date acc pos
  = Ok (match holding_of date pos with
        | Some h =>
            mk_valuation (holdings acc ++ [h])
              (total_market_value acc + Holding.market_value h)%Q
              (total_cost_basis acc + Holding.cost_basis h)%Q
        | None => acc
        end).
Proof.
  unfold value_position, holding_of.
  destruct (Qltb (Qabs (Pos.shares pos)) 0.0001); [ reflexivity | ].
  destruct (get_closing_price_total (Pos.fund pos) date) as [r Hr]. rewrite Hr.
  destruct r as [closing_price | ]; reflexivity.
Qed.

Lemma value_loop_spec (date : string) (l : list Pos.t) :
  forall acc : Valuation,
  exists acc',
    for_each (value_position date) l acc = Ok acc' /\
    holdings acc' = holdings acc ++ day_holdings date l /\
    (total_market_value acc'
     == total_market_value acc + sum_market_value (day_holdings date l))%Q /\
    (total_cost_basis acc'
     == total_cost_basis acc + sum_cost_basis (day_holdings date l))%Q.
Proof.
  induction l as [ | pos l IH ]; intros acc.
  - exists acc. simpl. rewrite app_nil_r. repeat split; lra.
  - simpl for_each. rewrite value_position_spec. simpl mbind.
    change (pyresult_bind _ _ ?k (Ok ?a)) with (k a). cbv beta.
    destruct (holding_of date pos) as [h | ] eqn:Hh.
    + destruct (IH (mk_valuation (holdings acc ++ [h])
                      (total_market_value acc + Holding.market_value h)%Q
                      (total_cost_basis acc + Holding.cost_basis h)%Q))
        as (acc' & Hrun & Hhs & Hmv & Hcb).
      exists acc'. simpl in *. rewrite Hh.
      split; [ exact Hrun | ].
      split; [ rewrite Hhs, <- app_assoc; reflexivity | ].
      simpl. split; lra.
    + destruct (IH acc) as (acc' & Hrun & Hhs & Hmv & Hcb).
      exists acc'. simpl. rewrite Hh. repeat split; assumption.
Qed.

Lemma value_positions_spec (date : string) (positions : Dict.dict Pos.t) :
  exists v,
    value_positions date positions = Ok v /\
    holdings v = day_holdings date (Dict.values positions) /\
    (total_market_value v == sum_market_value (holdings v))%Q /\
    (total_cost_basis v == sum_cost_basis (holdings v))%Q.
Proof.
  destruct (value_loop_spec date (Dict.values positions) (mk_valuation [] 0 0))
    as (v & Hrun & Hhs & Hmv & Hcb).
  exists v. simpl in *. split; [ exact Hrun | ]. split; [ exact Hhs | ].
  rewrite Hhs. split; lra.
Qed.

Lemma gain_loss_pct_spec (gl cb : Q) :
  exists q,
    gain_loss_pct gl cb = Ok q /\
    ((0 < cb)%Q -> (q == gl / cb * 100)%Q) /\
    ((cb <= 0)%Q -> q = 0%Q).
Proof.
  unfold gain_loss_pct. case_Qltb 0%Q cb as Hcb.
  - rewrite py_div_nonzero by lra. eexists. split; [ reflexivity | ].
    split; [ reflexivity | lra ].
  - exists 0%Q. split; [ reflexivity | ]. split; [ lra | reflexivity ].
Qed.

Lemma portfolio_snapshot_spec (date : string) (v : Valuation) :
  (total_market_value v == sum_market_value (holdings v))%Q ->
  (total_cost_basis v == sum_cost_basis (holdings v))%Q ->
  exists p,
    portfolio_snapshot date v = Ok p /\
    Portfolio.snapshot_date p = date /\
    aggregates p (holdings v).
Proof.
  intros Hmv Hcb. unfold portfolio_snapshot.
  destruct (gain_loss_pct_spec (total_market_value v - total_cost_basis v) (total_cost_basis v))
    as (q & Hq & Hpos & Hzero).
  rewrite Hq. eexists. split; [ reflexivity | ]. split; [ reflexivity | ].
  unfold aggregates. simpl.
  split; [ rewrite (py_round_comp _ _ 2 Hmv); reflexivity | ].
  split; [ rewrite (py_round_comp _ _ 2 Hcb); reflexivity | ].
  split.
  { rewrite (py_round_comp _ (sum_market_value (holdings v) - sum_cost_basis (holdings v)) 2);
      [ reflexivity | rewrite Hmv, Hcb; reflexivity ]. }
  split.
  - intros Hc. rewrite <- Hcb in Hc.
    rewrite (py_round_comp q
               ((sum_market_value (holdings v) - sum_cost_basis (holdings v))
                / sum_cost_basis (holdings v) * 100) 4);
      [ reflexivity | rewrite (Hpos Hc), Hmv, Hcb; reflexivity ].
  - intros Hc. rewrite <- Hcb in Hc. rewrite (Hzero Hc). reflexivity.
Qed.

Lemma holding_of_Some (date : string) (pos : Pos.t) (h : Holding.t) :
  holding_of date pos = Some h ->
  exists closing_price,
    get_closing_price (Pos.fund pos) date = Ok (Some closing_price) /\
    (0.0001 <= Qabs (Pos.shares pos))%Q /\
    h = Holding.mk date (Pos.fund pos) (Pos.account pos) (Pos.shares pos)
          closing_price (Pos.shares pos * closing_price)%Q (Pos.cost_basis pos)
          (Pos.shares pos * closing_price - Pos.cost_basis pos)%Q "historical".
Proof.
  unfold holding_of. case_Qltb (Qabs (Pos.shares pos)) 0.0001%Q as Hsmall; [ discriminate | ].
  destruct (get_closing_price (Pos.fund pos) date) as [[closing_price | ] | e];
    try discriminate.
  intros [= <-]. exists closing_price. repeat split. exact Hsmall.
Qed.


Lemma day_holdings_In (date : string) (l : list Pos.t) (h : Holding.t) :
  In h (day_holdings date l) <-> exists pos, In pos l /\ holding_of date pos = Some h.
Proof.
  induction l as [ | pos l IH ]; simpl.
  - split; [ contradiction | intros (pos & [] & _) ].
  - destruct (holding_of date pos) as [h0 | ] eqn:Hh; simpl; rewrite IH; split.
    + intros [<- | (pos' & Hin & Hpos')].
      * exists pos. split; [ left; reflexivity | exact Hh ].
      * exists pos'. split; [ right; exact Hin | exact Hpos' ].
    + intros (pos' & [<- | Hin] & Hpos').
      * left. congruence.
      * right. exists pos'. split; assumption.
    + intros (pos' & Hin & Hpos'). exists pos'. split; [ right; exact Hin | exact Hpos' ].
    + intros (pos' & [<- | Hin] & Hpos'); [ congruence | ].
      exists pos'. split; assumption.
Qed.

Lemma day_holdings_date (date : string) (l : list Pos.t) (h : Holding.t) :
  In h (day_holdings date l) -> Holding.snapshot_date h = date.
Proof.
  intros Hin. apply day_holdings_In in Hin as (pos & _ & Hpos).
  apply holding_of_Some in Hpos as (cp & _ & _ & ->). reflexivity.
Qed.

(** One date of the loop: the transactions of the date are replayed, the
    positions are valued, and the records of the date are appended. *)
Lemma process_date_spec (tx_by_date : Dict.dict (list Tx.t)) (st : State) (date : string) :
  exists positions' hs,
    replay (Dict.defaultdict_get tx_by_date date) (positions st) = Ok positions' /\
    hs = day_holdings date (Dict.values positions') /\
    ((hs = [] /\
      process_date tx_by_date st date
      = Ok (mk_state positions' (portfolio_snapshots st) (holdings_snapshots st)))
     \/
     (hs <> [] /\
      exists p,
        Portfolio.snapshot_date p = date /\ aggregates p hs /\
        process_date tx_by_date st date
        = Ok (mk_state positions' (portfolio_snapshots st ++ [p])
                (holdings_snapshots st ++ hs)))).
Proof.
  destruct (replay_total (Dict.defaultdict_get tx_by_date date) (positions st))
    as [positions' Hrep].
  destruct (value_positions_spec date positions') as (v & Hval & Hhs & Hmv & Hcb).
  exists positions', (holdings v).
  split; [ exact Hrep | ]. split; [ exact Hhs | ].
  unfold process_date. rewrite Hrep. simpl. rewrite Hval. simpl.
  destruct (portfolio_snapshot_spec date v Hmv Hcb) as (p & Hp & Hdate & Hagg).
  destruct (holdings v) as [ | h hs ] eqn:Hv.
  - left. split; reflexivity.
  - right. split; [ discriminate | ].
    rewrite Hp. simpl. exists p.
    split; [ exact Hdate | ]. split; [ exact Hagg | reflexivity ].
Qed.

(* ================================================================== *)
(** ** The loop over the dates                                         *)
(* ================================================================== *)

Lemma holdings_on_app (date : string) (hs1 hs2 : list Holding.t) :
  holdings_on date (hs1 ++ hs2) = holdings_on date hs1 ++ holdings_on date hs2.
Proof. apply List.filter_app. Qed.

Lemma portfolios_on_app (date : string) (ps1 ps2 : list Portfolio.t) :
  portfolios_on date (ps1 ++ ps2) = portfolios_on date ps1 ++ portfolios_on date ps2.
Proof. apply List.filter_app. Qed.

Lemma portfolios_on_single (date : string) (p : Portfolio.t) :
  portfolios_on date [p]
  = if String.eqb (Portfolio.snapshot_date p) date then [p] else [].
Proof. reflexivity. Qed.

Lemma holdings_on_same (date : string) (hs : list Holding.t) :
  (forall h, In h hs -> Holding.snapshot_date h = date) -> holdings_on date hs = hs.
Proof.
  intros Hall. induction hs as [ | h hs IH ]; [ reflexivity | ].
  unfold holdings_on. simpl.
  rewrite (Hall h (or_introl eq_refl)), String.eqb_refl. f_equal.
  apply IH. intros h' Hin. apply Hall. right. exact Hin.
Qed.

Lemma holdings_on_other (date date' : string) (hs : list Holding.t) :
  (forall h, In h hs -> Holding.snapshot_date h = date) -> date <> date' ->
  holdings_on date' hs = [].
Proof.
  intros Hall Hne. induction hs as [ | h hs IH ]; [ reflexivity | ].
  unfold holdings_on. simpl.
  rewrite (Hall h (or_introl eq_refl)).
  destruct (String.eqb_spec date date'); [ contradiction | ].
  apply IH. intros h' Hin. apply Hall. right. exact Hin.
Qed.

Lemma holdings_on_absent (date : string) (hs : list Holding.t) :
  (forall h, In h hs -> Holding.snapshot_date h <> date) -> holdings_on date hs = [].
Proof.
  intros Hall. induction hs as [ | h hs IH ]; [ reflexivity | ].
  unfold holdings_on. simpl.
  destruct (String.eqb_spec (Holding.snapshot_date h) date) as [Heq | _].
  - exfalso. exact (Hall h (or_introl eq_refl) Heq).
  - apply IH. intros h' Hin. apply Hall. right. exact Hin.
Qed.

Section DateLoop.

Variable tx_by_date : Dict.dict (list Tx.t).

Lemma consistent_step (st : State) (processed : list string) (date : string) :
  ~ In date processed ->
  consistent processed (portfolio_snapshots st) (holdings_snapshots st) ->
  exists st',
    process_date tx_by_date st date = Ok st' /\
    consistent (processed ++ [date]) (portfolio_snapshots st') (holdings_snapshots st').
Proof.
  intros Hnew [Hdates Hcons].
  assert (Hfresh : holdings_on date (holdings_snapshots st) = []).
  { apply holdings_on_absent. intros h Hin Heq. apply Hnew. rewrite <- Heq.
    apply Hdates, Hin. }
  assert (Hfresh' : portfolios_on date (portfolio_snapshots st) = []).
  { destruct (Hcons date) as [[H _] | (p & _ & H & _)]; [ exact H | contradiction ]. }
  destruct (process_date_spec tx_by_date st date)
    as (positions' & hs & _ & Hhs & [[Hnil Hrun] | (Hne & p & Hp & Hagg & Hrun)]).
  - (* no holding for the date: no record at all *)
    eexists. split; [ exact Hrun | ]. simpl. split.
    + intros h Hin. apply in_or_app. left. apply Hdates, Hin.
    + exact Hcons.
  - eexists. split; [ exact Hrun | ]. simpl.
    assert (Hall : forall h, In h hs -> Holding.snapshot_date h = date).
    { intros h Hin. subst hs. eapply day_holdings_date, Hin. }
    split.
    + intros h Hin. apply in_or_app. apply in_app_or in Hin as [Hin | Hin].
      * left. apply Hdates, Hin.
      * right. left. symmetry. apply Hall, Hin.
    + intros d. rewrite portfolios_on_app, holdings_on_app.
      destruct (String.eqb_spec date d) as [<- | Hd].
      * right. exists p.
        rewrite Hfresh, Hfresh', !app_nil_l, portfolios_on_single, Hp, String.eqb_refl.
        rewrite (holdings_on_same _ _ Hall).
        split; [ reflexivity | ]. split; assumption.
      * rewrite (holdings_on_other _ _ _ Hall Hd), app_nil_r.
        rewrite portfolios_on_single, Hp.
        destruct (String.eqb_spec date d); [ contradiction | ].
        rewrite app_nil_r. apply Hcons.
Qed.

Lemma consistent_loop (dates : list string) :
  List.NoDup dates ->
  forall (st : State) (processed : list string),
    (forall d, In d dates -> ~ In d processed) ->
    consistent processed (portfolio_snapshots st) (holdings_snapshots st) ->
    exists st',
      for_each (process_date tx_by_date) dates st = Ok st' /\
      consistent (processed ++ dates) (portfolio_snapshots st') (holdings_snapshots st').
Proof.
  induction 1 as [ | date dates Hnotin Hnodup IH ]; intros st processed Hfresh Hcons.
  - exists st. split; [ reflexivity | ]. rewrite app_nil_r. exact Hcons.
  - destruct (consistent_step st processed date
                (Hfresh date (or_introl eq_refl)) Hcons) as (st1 & Hstep & Hcons1).
    destruct (IH st1 (processed ++ [date])) as (st' & Hrun & Hcons').
    + intros d Hin Hin'. apply in_app_or in Hin' as [Hin' | [<- | []]].
      * exact (Hfresh d (or_intror Hin) Hin').
      * exact (Hnotin Hin).
    + exact Hcons1.
    + exists st'. split.
      * simpl. rewrite Hstep. exact Hrun.
      * rewrite <- app_assoc in Hcons'. exact Hcons'.
Qed.

End DateLoop.

(** The ledger after a stretch of dates is the replay of the transactions of
    those dates, in date order: prices play no part in it. *)
Lemma loop_positions (tx_by_date : Dict.dict (list Tx.t)) (dates : list string) :
  forall st st' : State,
    for_each (process_date tx_by_date) dates st = Ok st' ->
    replay (flat_map (Dict.defaultdict_get tx_by_date) dates) (positions st)
    = Ok (positions st').
Proof.
  induction dates as [ | date dates IH ]; intros st st'.
  - intros [= <-]. reflexivity.
  - simpl for_each. simpl flat_map. rewrite replay_app.
    destruct (process_date_spec tx_by_date st date)
      as (positions' & hs & Hrep & _ & [[_ Hrun] | (_ & p & _ & _ & Hrun)]);
      rewrite Hrun, Hrep, !bind_Ok; intros Hloop;
      apply (IH _ _ Hloop).
Qed.

Lemma consistent_init : consistent [] [] [].
Proof.
  split; [ intros h [] | ]. intros d. left. split; reflexivity.
Qed.

Lemma end_date_value : strptime "2025-10-28" = Ok (mk_datetime 2025 10 28).
Proof. vm_compute. reflexivity. Qed.

(** What a run that reaches the output stage has written: the records come
    from the date loop over duplicate-free dates and agree date by date. *)
Lemma main_consistent (transactions : list Tx.t) (r : RunResult) :
  main transactions = Ok r ->
  exists dates, consistent dates (portfolio_csv r) (holdings_csv r).
Proof.
  unfold main.
  destruct (sorted (Dict.keys (group_by_date transactions))) as [ | first_date rest ];
    [ discriminate | ].
  rewrite bind_Ok.
  destruct (strptime first_date) as [start_date | e] eqn:Hstart; [ | discriminate ].
  rewrite bind_Ok, end_date_value, bind_Ok.
  set (dates := all_dates_between start_date (mk_datetime 2025 10 28)).
  assert (Hnodup : List.NoDup dates).
  { apply all_dates_between_NoDup; [ eapply strptime_valid, Hstart | simpl; lia ]. }
  destruct (consistent_loop (group_by_date transactions) dates Hnodup
              (mk_state [] [] []) [])
    as (st & Hrun & Hcons).
  - intros d _ [].
  - apply consistent_init.
  - rewrite Hrun, bind_Ok. intros [= <-]. exists dates. exact Hcons.
Qed.


Lemma In_portfolios_on (p : Portfolio.t) (ps : list Portfolio.t) :
  In p ps -> In p (portfolios_on (Portfolio.snapshot_date p) ps).
Proof.
  intros Hin. unfold portfolios_on. apply filter_In.
  split; [ exact Hin | apply String.eqb_refl ].
Qed.


(** Every portfolio record written aggregates the holding records of its
    date, of which there is at least one. *)
Lemma main_aggregates (transactions : list Tx.t) (r : RunResult) (p : Portfolio.t) :
  main transactions = Ok r ->
  In p (portfolio_csv r) ->
  portfolios_on (Portfolio.snapshot_date p) (portfolio_csv r) = [p] /\
  holdings_on (Portfolio.snapshot_date p) (holdings_csv r) <> [] /\
  aggregates p (holdings_on (Portfolio.snapshot_date p) (holdings_csv r)).
Proof.
  intros Hmain Hin.
  destruct (main_consistent _ _ Hmain) as (dates & _ & Hcons).
  apply In_portfolios_on in Hin.
  destruct (Hcons (Portfolio.snapshot_date p)) as [[Hnil _] | (p0 & Hone & Hne & Hagg)].
  - rewrite Hnil in Hin. contradiction.
  - rewrite Hone in Hin. destruct Hin as [<- | []].
    split; [ exact Hone | ]. split; assumption.
Qed.




(** C8.  In every run and for every portfolio record, with the totals taken
    over the holding records of its date: [total_gain_loss_percent] is
    gain/loss / cost basis * 100 rounded to 4 decimals when the total cost
    basis is positive, and 0 when it is 0, in which case no division takes
    place (the division would raise); [total_market_value],
    [total_cost_basis] and [total_gain_loss] are the totals rounded to 2
    decimals. *)
Theorem portfolio_totals_rounding :
  (forall (transactions : list Tx.t) (r : RunResult) (p : Portfolio.t),
      main transactions = Ok r ->
      In p (portfolio_csv r) ->
      let hs := holdings_on (Portfolio.snapshot_date p) (holdings_csv r) in
      let mv := sum_market_value hs in
      let cb := sum_cost_basis hs in
      ((0 < cb)%Q ->
       (Portfolio.total_gain_loss_percent p == py_round ((mv - cb) / cb * 100) 4)%Q) /\
      ((cb == 0)%Q -> (Portfolio.total_gain_loss_percent p == 0)%Q) /\
      (Portfolio.total_market_value p == py_round mv 2)%Q /\
      (Portfolio.total_cost_basis p == py_round cb 2)%Q /\
      (Portfolio.total_gain_loss p == py_round (mv - cb) 2)%Q)
  /\
  (forall gl cb : Q,
      (cb == 0)%Q ->
      gain_loss_pct gl cb = Ok 0%Q /\ py_div gl cb = Raise ZeroDivisionError).
Proof.
  split.
  - intros transactions r p Hmain Hin hs mv cb.
    destruct (main_aggregates _ _ _ Hmain Hin) as (_ & _ & Hmv & Hcb & Hgl & Hpos & Hzero).
    fold hs in Hmv, Hcb, Hgl, Hpos, Hzero. fold mv cb in Hmv, Hcb, Hgl, Hpos, Hzero.
    split; [ exact Hpos | ].
    split; [ intros Hc; apply Hzero; lra | ].
    split; [ exact Hmv | ]. split; assumption.
  - intros gl cb Hcb. split.
    + destruct (gain_loss_pct_spec gl cb) as (q & Hq & _ & Hzero).
      rewrite Hq, (Hzero ltac:(lra)). reflexivity.
    + apply py_div_zero, Hcb.
Qed.

Lemma portfolio_totals_rounding_witness :
  let p := Portfolio.mk "2025-10-24" 2002.26 1800.00 202.26 11.2367 "backfill" "closed" in
  let hs := holdings_on "2025-10-24" (holdings_csv sample_run) in
  let mv := sum_market_value hs in
  let cb := sum_cost_basis hs in
  (Portfolio.total_gain_loss_percent p == py_round ((mv - cb) / cb * 100) 4)%Q /\
  (Portfolio.total_market_value p == py_round mv 2)%Q /\
  (Portfolio.total_cost_basis p == py_round cb 2)%Q /\
  (Portfolio.total_gain_loss p == py_round (mv - cb) 2)%Q.
Proof.
  intros p hs mv cb.
  destruct (proj1 portfolio_totals_rounding sample_transactions sample_run p)
    as (Hpct & _ & Hmv & Hcb & Hgl).
  - vm_compute. reflexivity.
  - right. left. vm_compute. reflexivity.
  - split; [ apply Hpct; vm_compute; reflexivity | ].
    split; [ exact Hmv | ]. split; [ exact Hcb | exact Hgl ].
Defined.

(* ================================================================== *)
(** ** Missing prices                                                  *)
(* ================================================================== *)






(* ================================================================== *)
(** ** Further properties of the position ledger                       *)
(* ================================================================== *)

Lemma apply_tx_position_for (positions positions' : Dict.dict Pos.t) (tx : Tx.t) :
  apply_tx positions tx = Ok positions' ->
  exists pos',
    update_position (position_for positions tx) (Tx.units tx) (Tx.amount tx) = Ok pos' /\
    Dict.get positions' (position_key tx) = Some pos'.
Proof.
  intros Happly. destruct (apply_tx_same _ _ _ Happly) as (pos' & Hget & Hup).
  exists pos'. split; assumption.
Qed.

(** X1.  A transaction with zero units, or a disposal addressed to a key
    that holds no shares (or is not tracked yet), changes no number of the
    ledger: afterwards its key holds the position it held before, or a new
    empty position if the key was not tracked, and every other key is
    untouched. *)
Theorem ignored_transaction
    (positions positions' : Dict.dict Pos.t) (tx : Tx.t) :
  ((Tx.units tx == 0)%Q \/
   ((Tx.units tx < 0)%Q /\ (shares_at positions (position_key tx) <= 0)%Q)) ->
  apply_tx positions tx = Ok positions' ->
  Dict.get positions' (position_key tx) = Some (position_for positions tx) /\
  (forall k : string,
      k <> position_key tx -> Dict.get positions' k = Dict.get positions k).
Proof.
  intros Hnoop Happly. split.
  - destruct (apply_tx_position_for _ _ _ Happly) as (pos' & Hup & Hget).
    rewrite update_position_noop in Hup.
    + injection Hup as <-. exact Hget.
    + destruct Hnoop as [Hz | [Hneg _]]; lra.
    + destruct Hnoop as [Hz | [_ Hs]]; [ left; lra | right ].
      unfold position_for, shares_at in *.
      destruct (Dict.get positions (position_key tx)); simpl; lra.
  - intros k Hk. eapply apply_tx_other; [ exact Happly | ].
    intros Heq. apply Hk. symmetry. exact Heq.
Qed.

Lemma ignored_transaction_witness :
  let tx := Tx.mk "2025-09-02" "VTI" "Brokerage" "Fee" (-1) 300 300 in
  Dict.get [("VTI||Brokerage", Pos.mk "VTI" "Brokerage" 0 0)] (position_key tx)
  = Some (position_for [] tx) /\
  (forall k : string,
      k <> position_key tx ->
      Dict.get [("VTI||Brokerage", Pos.mk "VTI" "Brokerage" 0 0)] k = Dict.get [] k).
Proof.
  intros tx.
  apply (ignored_transaction [] [("VTI||Brokerage", Pos.mk "VTI" "Brokerage" 0 0)] tx).
  - right. split; reflexivity || discriminate.
  - reflexivity.
Defined.

(** X2.  In exact (rational) arithmetic, a disposal against a held position
    with a non-negative basis is either partial or total: fewer units than
    held leave [shares - |units|] shares and take out the proportional basis
    [cost_basis / shares * |units|], with nothing clamped; as many units as
    held, or more, leave 0 shares and a basis of 0.  (On binary64 numbers
    these equalities hold up to rounding: [selling_out_leaves_a_residue]
    shows a basis of 2.84e-14 left by a total disposal.) *)
Theorem disposal_partial_or_total (pos pos' : Pos.t) (u amount : Q) :
  (0 < Pos.shares pos)%Q -> (0 <= Pos.cost_basis pos)%Q -> (u < 0)%Q ->
  update_position pos u amount = Ok pos' ->
  ((Qabs u < Pos.shares pos)%Q ->
   (Pos.shares pos' == Pos.shares pos - Qabs u)%Q /\
   (Pos.cost_basis pos'
    == Pos.cost_basis pos - Pos.cost_basis pos / Pos.shares pos * Qabs u)%Q) /\
  ((Pos.shares pos <= Qabs u)%Q ->
   (Pos.shares pos' == 0)%Q /\ (Pos.cost_basis pos' == 0)%Q).
Proof.
  intros Hs Hc Hu Hup.
  rewrite (update_position_dispose pos u amount Hu Hs) in Hup.
  injection Hup as <-. simpl.
  assert (Hbasis := disposal_basis _ _ u Hs Hc).
  split.
  - intros Hpart.
    assert (Hrem : (py_max 0 (Pos.shares pos - Qabs u) == Pos.shares pos - Qabs u)%Q).
    { unfold py_max. case_Qltb 0%Q (Pos.shares pos - Qabs u)%Q as E; lra. }
    split; [ exact Hrem | ].
    rewrite Hbasis, Hrem. field. lra.
  - intros Hall.
    assert (Hrem : (py_max 0 (Pos.shares pos - Qabs u) == 0)%Q).
    { unfold py_max. case_Qltb 0%Q (Pos.shares pos - Qabs u)%Q as E; lra. }
    split; [ exact Hrem | ].
    rewrite Hbasis, Hrem. field. lra.
Qed.

Lemma disposal_partial_or_total_witness :
  let pos := Pos.mk "VTI" "Brokerage" 10 3000 in
  let pos' := Pos.mk "VTI" "Brokerage" (py_max 0 (10 - Qabs (-4)))
                (py_max 0 (3000 - 3000 / 10 * py_min (Qabs (-4)) 10)) in
  (Pos.shares pos' == Pos.shares pos - Qabs (-4))%Q /\
  (Pos.cost_basis pos'
   == Pos.cost_basis pos - Pos.cost_basis pos / Pos.shares pos * Qabs (-4))%Q.
Proof.
  intros pos pos'.
  apply (disposal_partial_or_total pos pos' (-4)%Q 1280%Q).
  - reflexivity.
  - discriminate.
  - reflexivity.
  - reflexivity.
  - reflexivity.
Defined.

(** X3.  The cash amount of a transaction only matters for acquisitions,
    and there only its absolute value: with [units <= 0] the update is the
    same for every amount (the proceeds of a sale are not recorded), and
    with [units > 0] two amounts of equal absolute value give the same
    shares and equal cost basis. *)
Theorem amount_only_counts_for_acquisitions (pos : Pos.t) (u a1 a2 : Q) :
  ((u <= 0)%Q -> update_position pos u a1 = update_position pos u a2) /\
  ((Qabs a1 == Qabs a2)%Q ->
   exists p1 p2,
     update_position pos u a1 = Ok p1 /\ update_position pos u a2 = Ok p2 /\
     Pos.fund p1 = Pos.fund p2 /\ Pos.account p1 = Pos.account p2 /\
     Pos.shares p1 = Pos.shares p2 /\ (Pos.cost_basis p1 == Pos.cost_basis p2)%Q).
Proof.
  split.
  - intros Hu. unfold update_position.
    assert (H0 : Qltb 0 u = false) by (apply Qltb_false; exact Hu).
    rewrite H0. reflexivity.
  - intros Habs.
    destruct (update_position_cases pos u a1) as [[Hu H1] | [[Hu [Hs H1]] | [Hu [Hno H1]]]].
    + rewrite H1, (update_position_acquire pos u a2 Hu).
      do 2 eexists. repeat split. simpl. rewrite Habs. reflexivity.
    + rewrite H1, (update_position_dispose pos u a2 Hu Hs).
      do 2 eexists. repeat split.
    + rewrite H1, (update_position_noop pos u a2 Hu Hno).
      do 2 eexists. repeat split.
Qed.

Lemma amount_only_counts_for_acquisitions_witness :
  update_position (Pos.mk "VTI" "Brokerage" 10 3000) (-4) 1280
  = update_position (Pos.mk "VTI" "Brokerage" 10 3000) (-4) 0.
Proof.
  apply (proj1 (amount_only_counts_for_acquisitions
                  (Pos.mk "VTI" "Brokerage" 10 3000) (-4) 1280 0)).
  discriminate.
Defined.

(* ------------------------------------------------------------------ *)

Lemma update_position_keeps_names (pos pos' : Pos.t) (units amount : Q) :
  update_position pos units amount = Ok pos' -> key_of pos' = key_of pos.
Proof.
  destruct (update_position_cases pos units amount) as [[_ H] | [[_ [_ H]] | [_ [_ H]]]];
    rewrite H; intros [= <-]; reflexivity.
Qed.

Lemma keys_match_set (d : Dict.dict Pos.t) (k : string) (pos : Pos.t) :
  keys_match d -> k = key_of pos -> keys_match (Dict.set d k pos).
Proof.
  intros Hd ->. induction d as [ | [k' v'] d IH ]; simpl.
  - constructor; [ reflexivity | constructor ].
  - inversion Hd as [ | ? ? Hhd Htl ]; subst.
    destruct (String.eqb_spec k' (key_of pos)) as [Heq | Hne];
      constructor; simpl; auto.
    apply IH, Htl.
Qed.

Lemma keys_match_get (d : Dict.dict Pos.t) (k : string) (pos : Pos.t) :
  keys_match d -> Dict.get d k = Some pos -> k = key_of pos.
Proof.
  intros Hd. induction d as [ | [k' v'] d IH ]; simpl; [ discriminate | ].
  inversion Hd as [ | ? ? Hhd Htl ]; subst. simpl in Hhd.
  destruct (String.eqb_spec k' k) as [-> | Hne].
  - intros [= <-]. exact Hhd.
  - apply IH, Htl.
Qed.

Lemma apply_tx_keys_match (positions positions' : Dict.dict Pos.t) (tx : Tx.t) :
  keys_match positions -> apply_tx positions tx = Ok positions' -> keys_match positions'.
Proof.
  intros Hok. rewrite apply_tx_unfold.
  fold (position_for positions tx).
  destruct (update_position (position_for positions tx) (Tx.units tx) (Tx.amount tx))
    as [pos' | e] eqn:Hup; [ | discriminate ].
  rewrite bind_Ok. intros [= <-].
  assert (Hkey : position_key tx = key_of pos').
  { rewrite (update_position_keeps_names _ _ _ _ Hup). unfold position_for.
    destruct (Dict.get positions (position_key tx)) as [pos | ] eqn:Hget.
    - apply (keys_match_get _ _ _ Hok Hget).
    - reflexivity. }
  apply keys_match_set; [ | exact Hkey ].
  destruct (Dict.contains positions (position_key tx)); [ exact Hok | ].
  apply keys_match_set; [ exact Hok | reflexivity ].
Qed.

Lemma replay_keys_match (txs : list Tx.t) :
  forall positions positions',
    keys_match positions -> replay txs positions = Ok positions' -> keys_match positions'.
Proof.
  induction txs as [ | tx txs IH ]; intros positions positions' Hok.
  - intros [= <-]. exact Hok.
  - rewrite replay_cons.
    destruct (apply_tx positions tx) as [p | e] eqn:Hp; [ | discriminate ].
    rewrite bind_Ok. apply IH. eapply apply_tx_keys_match; eassumption.
Qed.

(** X4.  In every ledger reached by a replay from the empty ledger, a
    position is stored under the key spelled by the names it records:
    [key = fund + "||" + account]. *)
Theorem stored_names_spell_the_key
    (txs : list Tx.t) (positions : Dict.dict Pos.t) (k : string) (pos : Pos.t) :
  replay txs [] = Ok positions ->
  Dict.get positions k = Some pos ->
  k = String.append (Pos.fund pos) (String.append "||" (Pos.account pos)).
Proof.
  intros Hrun Hget.
  apply (keys_match_get positions k pos); [ | exact Hget ].
  apply (replay_keys_match txs [] positions); [ constructor | exact Hrun ].
Qed.

Lemma stored_names_spell_the_key_witness :
  "VTI||Brokerage"
  = String.append (Pos.fund (Pos.mk "VTI" "Brokerage" (0 + 10) (0 + Qabs (-3000))))
      (String.append "||" (Pos.account (Pos.mk "VTI" "Brokerage" (0 + 10) (0 + Qabs (-3000))))).
Proof.
  apply (stored_names_spell_the_key
           [Tx.mk "2025-09-02" "VTI" "Brokerage" "Buy" 10 300 (-3000)]%Q
           [("VTI||Brokerage", Pos.mk "VTI" "Brokerage" (0 + 10) (0 + Qabs (-3000)))]).
  - reflexivity.
  - reflexivity.
Defined.

(** X5.  Two transactions addressed to different keys can be applied in
    either order: both orders succeed and leave the same position under
    every key. *)
Theorem different_keys_commute (positions : Dict.dict Pos.t) (tx1 tx2 : Tx.t) :
  position_key tx1 <> position_key tx2 ->
  exists p12 p21,
    replay [tx1; tx2] positions = Ok p12 /\
    replay [tx2; tx1] positions = Ok p21 /\
    forall k : string, Dict.get p12 k = Dict.get p21 k.
Proof.
  intros Hne.
  assert (Hne' : position_key tx2 <> position_key tx1) by congruence.
  destruct (apply_tx_total positions tx1) as [p1 H1].
  destruct (apply_tx_total p1 tx2) as [p12 H12].
  destruct (apply_tx_total positions tx2) as [p2 H2].
  destruct (apply_tx_total p2 tx1) as [p21 H21].
  exists p12, p21.
  split; [ rewrite replay_cons, H1, bind_Ok, replay_cons, H12; reflexivity | ].
  split; [ rewrite replay_cons, H2, bind_Ok, replay_cons, H21; reflexivity | ].
  intros k.
  destruct (apply_tx_position_for _ _ _ H1) as (a1 & Hu1 & Hg1).
  destruct (apply_tx_position_for _ _ _ H12) as (a12 & Hu12 & Hg12).
  destruct (apply_tx_position_for _ _ _ H2) as (a2 & Hu2 & Hg2).
  destruct (apply_tx_position_for _ _ _ H21) as (a21 & Hu21 & Hg21).
  assert (E1 : position_for p2 tx1 = position_for positions tx1).
  { unfold position_for. rewrite (apply_tx_other _ _ _ _ H2 Hne'). reflexivity. }
  assert (E2 : position_for p1 tx2 = position_for positions tx2).
  { unfold position_for. rewrite (apply_tx_other _ _ _ _ H1 Hne). reflexivity. }
  rewrite E1 in Hu21. rewrite E2 in Hu12.
  assert (a21 = a1) by congruence. assert (a12 = a2) by congruence. subst a21 a12.
  destruct (String.eqb_spec k (position_key tx1)) as [-> | Hk1].
  - rewrite (apply_tx_other _ _ _ _ H12 Hne'), Hg1, Hg21. reflexivity.
  - destruct (String.eqb_spec k (position_key tx2)) as [-> | Hk2].
    + rewrite Hg12, (apply_tx_other _ _ _ _ H21 Hne), Hg2. reflexivity.
    + rewrite (apply_tx_other _ _ _ k H12), (apply_tx_other _ _ _ k H1),
        (apply_tx_other _ _ _ k H21), (apply_tx_other _ _ _ k H2); congruence.
Qed.

Lemma different_keys_commute_witness :
  let tx1 := Tx.mk "2025-09-02" "VTI" "Brokerage" "Buy" 10 300 (-3000) in
  let tx2 := Tx.mk "2025-09-02" "SCHD" "Roth" "Buy" 5 27 (-135) in
  exists p12 p21,
    replay [tx1; tx2] [] = Ok p12 /\
    replay [tx2; tx1] [] = Ok p21 /\
    forall k : string, Dict.get p12 k = Dict.get p21 k.
Proof.
  intros tx1 tx2. apply (different_keys_commute [] tx1 tx2). discriminate.
Defined.

(* ================================================================== *)
(** ** Grouping the transactions by date                               *)
(* ================================================================== *)

Lemma defaultdict_get_set {A : Type} (d : Dict.dict (list A)) (k k' : string) (v : list A) :
  Dict.defaultdict_get (Dict.set d k v) k'
  = if String.eqb k k' then v else Dict.defaultdict_get d k'.
Proof.
  unfold Dict.defaultdict_get.
  destruct (String.eqb_spec k k') as [<- | Hne].
  - rewrite get_set_eq. reflexivity.
  - rewrite get_set_ne by exact Hne. reflexivity.
Qed.

Lemma keys_set {V : Type} (d : Dict.dict V) (k k' : string) (v : V) :
  In k' (Dict.keys (Dict.set d k v)) <-> k' = k \/ In k' (Dict.keys d).
Proof.
  induction d as [ | [k0 v0] d IH ]; simpl.
  - intuition.
  - destruct (String.eqb_spec k0 k) as [-> | Hne]; simpl.
    + intuition.
    + rewrite IH. intuition.
Qed.

Lemma keys_set_NoDup {V : Type} (d : Dict.dict V) (k : string) (v : V) :
  List.NoDup (Dict.keys d) -> List.NoDup (Dict.keys (Dict.set d k v)).
Proof.
  induction d as [ | [k0 v0] d IH ]; simpl; intros Hd.
  - constructor; [ intros [] | constructor ].
  - inversion Hd as [ | ? ? Hnotin Hd' ]; subst.
    destruct (String.eqb_spec k0 k) as [-> | Hne]; simpl.
    + constructor; assumption.
    + constructor; [ | apply IH, Hd' ].
      intros Hin. apply keys_set in Hin as [Heq | Hin]; [ congruence | contradiction ].
Qed.

Lemma dated_cons (d : string) (tx : Tx.t) (txs : list Tx.t) :
  dated d (tx :: txs)
  = if String.eqb (Tx.date tx) d then tx :: dated d txs else dated d txs.
Proof. reflexivity. Qed.

Lemma group_fold (txs : list Tx.t) :
  forall (acc : Dict.dict (list Tx.t)) (d : string),
    Dict.defaultdict_get
      (fold_left
         (fun g tx => Dict.set g (Tx.date tx) (Dict.defaultdict_get g (Tx.date tx) ++ [tx]))
         txs acc) d
    = Dict.defaultdict_get acc d ++ dated d txs /\
    (In d (Dict.keys
             (fold_left
                (fun g tx =>
                   Dict.set g (Tx.date tx) (Dict.defaultdict_get g (Tx.date tx) ++ [tx]))
                txs acc)) <->
     In d (Dict.keys acc) \/ exists tx, In tx txs /\ Tx.date tx = d) /\
    (List.NoDup (Dict.keys acc) ->
     List.NoDup
       (Dict.keys
          (fold_left
             (fun g tx =>
                Dict.set g (Tx.date tx) (Dict.defaultdict_get g (Tx.date tx) ++ [tx]))
             txs acc))).
Proof.
  induction txs as [ | tx txs IH ]; intros acc d; cbn [fold_left].
  - change (dated d []) with (@nil Tx.t). rewrite app_nil_r.
    split; [ reflexivity | ]. split; [ | tauto ].
    split; [ tauto | intros [H | (tx & [] & _)]; exact H ].
  - destruct (IH (Dict.set acc (Tx.date tx)
                    (Dict.defaultdict_get acc (Tx.date tx) ++ [tx])) d)
      as (Hget & Hkeys & Hnodup).
    split; [ | split ].
    + rewrite Hget, defaultdict_get_set, dated_cons.
      destruct (String.eqb_spec (Tx.date tx) d) as [<- | Hne].
      * rewrite <- app_assoc. reflexivity.
      * reflexivity.
    + rewrite Hkeys, keys_set. split.
      * intros [[-> | H] | (tx' & Hin & Hd)].
        -- right. exists tx. split; [ left; reflexivity | reflexivity ].
        -- left. exact H.
        -- right. exists tx'. split; [ right; exact Hin | exact Hd ].
      * intros [H | (tx' & [<- | Hin] & Hd)].
        -- left. right. exact H.
        -- left. left. symmetry. exact Hd.
        -- right. exists tx'. split; assumption.
    + intros Hacc. apply Hnodup, keys_set_NoDup, Hacc.
Qed.

Lemma grouping_keys (transactions : list Tx.t) (d : string) :
  In d (Dict.keys (group_by_date transactions)) <->
  exists tx, In tx transactions /\ Tx.date tx = d.
Proof.
  destruct (group_fold transactions [] d) as (_ & Hkeys & _).
  unfold group_by_date. rewrite Hkeys. simpl. tauto.
Qed.

Lemma grouping_lookup (transactions : list Tx.t) (d : string) :
  Dict.defaultdict_get (group_by_date transactions) d = dated d transactions.
Proof. destruct (group_fold transactions [] d) as (Hget & _). exact Hget. Qed.

(** X6.  Grouping keeps every transaction under its own date string and in
    input order: the group of a date is the sub-list of the transactions
    with that date (empty for a date no transaction has), and the dates
    that own a group are exactly the dates of the transactions, each once. *)
Theorem grouping_by_date (transactions : list Tx.t) (d : string) :
  Dict.defaultdict_get (group_by_date transactions) d = dated d transactions /\
  (In d (Dict.keys (group_by_date transactions)) <->
   exists tx, In tx transactions /\ Tx.date tx = d) /\
  List.NoDup (Dict.keys (group_by_date transactions)).
Proof.
  destruct (group_fold transactions [] d) as (Hget & Hkeys & Hnodup).
  split; [ exact Hget | ]. split.
  - unfold group_by_date. rewrite Hkeys. simpl. tauto.
  - apply Hnodup. constructor.
Qed.

(* ================================================================== *)
(** ** The dates of the loop                                           *)
(* ================================================================== *)

Lemma le_iff (a b : datetime) :
  Datetime.le a b = true <->
  (year a < year b \/
   (year a = year b /\ (month a < month b \/ (month a = month b /\ day a <= day b))))%Z.
Proof.
  unfold Datetime.le.
  rewrite orb_true_iff, andb_true_iff, orb_true_iff, andb_true_iff.
  rewrite !Z.ltb_lt, !Z.eqb_eq, Z.leb_le. reflexivity.
Qed.

Lemma datetime_eq_dec (a b : datetime) : {a = b} + {a <> b}.
Proof. decide equality; apply Z.eq_dec. Qed.

Lemma datetime_neq (a b : datetime) :
  a <> b -> (year a <> year b \/ month a <> month b \/ day a <> day b)%Z.
Proof.
  destruct a as [ya ma da], b as [yb mb db]; simpl. intros Hne.
  destruct (Z.eq_dec ya yb) as [-> | ]; [ | left; assumption ].
  destruct (Z.eq_dec ma mb) as [-> | ]; [ | right; left; assumption ].
  destruct (Z.eq_dec da db) as [-> | ]; [ | right; right; assumption ].
  contradiction Hne. reflexivity.
Qed.

(** The day after a date before [e] is not after [e]: the loop cannot step
    over its end date. *)
Lemma next_day_le (cur e : datetime) :
  valid_date cur -> valid_date e ->
  Datetime.le cur e = true -> cur <> e -> Datetime.le (next_day cur) e = true.
Proof.
  intros (Hy & Hm & Hd) (Hye & Hme & Hde) Hle Hne.
  apply le_iff in Hle. apply datetime_neq in Hne. apply le_iff.
  unfold next_day.
  destruct (day cur <? days_in_month (year cur) (month cur))%Z eqn:E1; simpl.
  - apply Z.ltb_lt in E1. lia.
  - apply Z.ltb_ge in E1.
    destruct (month cur <? 12)%Z eqn:E2; simpl.
    + apply Z.ltb_lt in E2.
      destruct Hle as [Hlt | [Heq [Hlt | [Heqm Hled]]]]; try lia.
      rewrite <- Heq, <- Heqm in Hde. lia.
    + apply Z.ltb_ge in E2.
      destruct Hle as [Hlt | [Heq [Hlt | [Heqm Hled]]]]; try lia.
      rewrite <- Heq, <- Heqm in Hde. lia.
Qed.

Lemma date_range_after (fuel : nat) (cur e : datetime) :
  Datetime.le cur e = false -> date_range fuel cur e = [].
Proof. intros Hle. destruct fuel; simpl; [ | rewrite Hle ]; reflexivity. Qed.

Lemma date_range_last (e : datetime) :
  valid_date e ->
  forall (fuel : nat) (cur : datetime),
    valid_date cur ->
    Datetime.le cur e = true ->
    (rank e + 1 - rank cur <= Z.of_nat fuel)%Z ->
    last (date_range fuel cur e) = Some (strftime e).
Proof.
  intros He. induction fuel as [ | fuel IH ]; intros cur Hv Hle Hfuel.
  - assert (H := le_rank _ _ Hv He Hle). lia.
  - simpl. rewrite Hle.
    destruct (datetime_eq_dec cur e) as [-> | Hne].
    + rewrite date_range_after; [ reflexivity | ].
      destruct (Datetime.le (next_day e) e) eqn:Hback; [ | reflexivity ].
      assert (H1 := le_rank _ _ (next_day_valid _ He) He Hback).
      assert (H2 := next_day_rank _ He). lia.
    + assert (Hnext := next_day_le _ _ Hv He Hle Hne).
      assert (Hrank := next_day_rank _ Hv).
      assert (Htail := IH (next_day cur) (next_day_valid _ Hv) Hnext ltac:(lia)).
      rewrite last_cons, Htail. reflexivity.
Qed.

(** X7.  The dates of the loop run from the start date to the end date,
    both included, without repetition: if the start is not after the end,
    the first date is the start and the last is the end; otherwise there
    is no date at all.  Every date of the loop is a calendar date written
    as [YYYY-MM-DD]. *)
Theorem all_dates_inclusive (start_date end_date : datetime) :
  valid_date start_date -> valid_date end_date -> (year end_date <= 9999)%Z ->
  List.NoDup (all_dates_between start_date end_date) /\
  (Datetime.le start_date end_date = true ->
   head (all_dates_between start_date end_date) = Some (strftime start_date) /\
   last (all_dates_between start_date end_date) = Some (strftime end_date)) /\
  (Datetime.le start_date end_date = false ->
   all_dates_between start_date end_date = []) /\
  (forall s : string,
      In s (all_dates_between start_date end_date) ->
      exists dt, s = strftime dt /\ valid_date dt /\ Datetime.le dt end_date = true).
Proof.
  intros Hs He Hy.
  split; [ apply all_dates_between_NoDup; assumption | ].
  split; [ | split ].
  - intros Hle. assert (Hrank := le_rank _ _ Hs He Hle). split.
    + unfold all_dates_between.
      destruct (Z.to_nat (rank end_date + 1 - rank start_date)) as [ | fuel ] eqn:Hfuel;
        [ lia | ].
      simpl. rewrite Hle. reflexivity.
    + unfold all_dates_between. apply date_range_last; try assumption. lia.
  - intros Hle. apply date_range_after, Hle.
  - intros s Hin.
    destruct (date_range_elems _ _ _ _ Hs Hin) as (dt & Heq & Hdt & _ & Hdle).
    exists dt. repeat split; try assumption; apply Hdt.
Qed.

Lemma all_dates_inclusive_witness :
  let start_date := mk_datetime 2025 10 23 in
  let end_date := mk_datetime 2025 10 28 in
  List.NoDup (all_dates_between start_date end_date) /\
  (Datetime.le start_date end_date = true ->
   head (all_dates_between start_date end_date) = Some (strftime start_date) /\
   last (all_dates_between start_date end_date) = Some (strftime end_date)) /\
  (Datetime.le start_date end_date = false ->
   all_dates_between start_date end_date = []) /\
  (forall s : string,
      In s (all_dates_between start_date end_date) ->
      exists dt, s = strftime dt /\ valid_date dt /\ Datetime.le dt end_date = true).
Proof.
  intros start_date end_date.
  apply (all_dates_inclusive start_date end_date).
  - unfold valid_date. vm_compute. intuition discriminate.
  - unfold valid_date. vm_compute. intuition discriminate.
  - vm_compute. discriminate.
Defined.

(* ================================================================== *)
(** ** The outcomes of a run                                           *)
(* ================================================================== *)

Lemma string_compare_trans (a : string) :
  forall b c : string,
    String.compare a b <> Gt -> String.compare b c <> Gt -> String.compare a c <> Gt.
Proof.
  induction a as [ | x a IH ]; intros [ | y b ] [ | z c ]; simpl; try congruence.
  unfold Ascii.compare.
  destruct (N.compare_spec (N_of_ascii x) (N_of_ascii y)) as [Hxy | Hxy | Hxy];
    destruct (N.compare_spec (N_of_ascii y) (N_of_ascii z)) as [Hyz | Hyz | Hyz];
    destruct (N.compare_spec (N_of_ascii x) (N_of_ascii z)) as [Hxz | Hxz | Hxz];
    try congruence; try lia.
  apply IH.
Qed.

Lemma string_leb_trans (a b c : string) :
  String.leb a b = true -> String.leb b c = true -> String.leb a c = true.
Proof.
  unfold String.leb. intros Hab Hbc.
  assert (H := string_compare_trans a b c).
  destruct (String.compare a b); try discriminate;
    destruct (String.compare b c); try discriminate;
    destruct (String.compare a c); try reflexivity;
    exfalso; apply H; congruence.
Qed.

Lemma insert_sorted_In (x y : string) (l : list string) :
  In y (insert_sorted x l) <-> y = x \/ In y l.
Proof.
  induction l as [ | z l IH ]; simpl.
  - intuition.
  - destruct (String.leb x z); simpl; [ intuition | rewrite IH; intuition ].
Qed.

Lemma sorted_In (y : string) (l : list string) : In y (sorted l) <-> In y l.
Proof.
  induction l as [ | x l IH ]; simpl; [ reflexivity | ].
  rewrite insert_sorted_In, IH. intuition.
Qed.

Lemma string_leb_refl (x : string) : String.leb x x = true.
Proof. destruct (String.leb_total x x); assumption. Qed.

Lemma insert_sorted_head (x : string) (l : list string) :
  (forall h rest, l = h :: rest -> forall y, In y l -> String.leb h y = true) ->
  forall h rest,
    insert_sorted x l = h :: rest ->
    forall y, In y (insert_sorted x l) -> String.leb h y = true.
Proof.
  intros Hl h rest Heq y Hin. apply insert_sorted_In in Hin.
  destruct l as [ | z l ]; simpl in Heq.
  - injection Heq as Hh Hr. subst h rest. destruct Hin as [-> | []].
    apply string_leb_refl.
  - assert (Hz := Hl z l eq_refl).
    destruct (String.leb x z) eqn:Hxz; injection Heq as Hh Hr; subst h rest.
    + destruct Hin as [-> | Hin].
      * apply string_leb_refl.
      * eapply string_leb_trans; [ exact Hxz | apply Hz, Hin ].
    + destruct Hin as [-> | Hin]; [ | apply Hz, Hin ].
      destruct (String.leb_total x z) as [H | H]; [ congruence | exact H ].
Qed.

(** The first of the sorted strings is a least one. *)
Lemma sorted_head (l : list string) (h : string) (rest : list string) :
  sorted l = h :: rest -> forall y, In y l -> String.leb h y = true.
Proof.
  revert h rest. induction l as [ | x l IH ]; intros h rest Heq y Hin; [ destruct Hin | ].
  apply (insert_sorted_head x (sorted l)) with (rest := rest).
  - intros h' rest' Heq' y' Hin'. apply (IH h' rest' Heq'), sorted_In, Hin'.
  - exact Heq.
  - apply (sorted_In y (x :: l)), Hin.
Qed.

Lemma strptime_error (s : string) (e : exn) : strptime s = Raise e -> e = ValueError.
Proof.
  unfold strptime.
  repeat match goal with
         | |- context [match ?x with _ => _ end] => destruct x
         end; congruence.
Qed.

Lemma date_loop_total (tx_by_date : Dict.dict (list Tx.t)) (dates : list string) :
  forall st : State, exists st', for_each (process_date tx_by_date) dates st = Ok st'.
Proof.
  induction dates as [ | date dates IH ]; intros st.
  - exists st. reflexivity.
  - simpl.
    destruct (process_date_spec tx_by_date st date)
      as (positions' & hs & _ & _ & [[_ Hrun] | (_ & p & _ & _ & Hrun)]);
      rewrite Hrun, bind_Ok; apply IH.
Qed.

(** [main], once the first date is known. *)
Lemma main_with_first (transactions : list Tx.t) (first_date : string) (rest : list string) :
  sorted (Dict.keys (group_by_date transactions)) = first_date :: rest ->
  main transactions
  = (start_date ← strptime first_date;
     st ← for_each (process_date (group_by_date transactions))
            (all_dates_between start_date (mk_datetime 2025 10 28)) (mk_state [] [] []);
     Ok (mk_result (portfolio_snapshots st) (holdings_snapshots st)
           (match all_dates_between start_date (mk_datetime 2025 10 28) with
            | _ :: _ => Ok tt
            | [] => Raise IndexError
            end))).
Proof.
  intros Hfirst. unfold main. rewrite Hfirst, bind_Ok.
  destruct (strptime first_date) as [start_date | e]; [ | reflexivity ].
  rewrite !bind_Ok, end_date_value, bind_Ok. reflexivity.
Qed.

(** The loop behind the records of a run. *)
Lemma main_loop (transactions : list Tx.t) (r : RunResult) :
  main transactions = Ok r ->
  exists (start_date : datetime) (st : State),
    valid_date start_date /\
    for_each (process_date (group_by_date transactions))
      (all_dates_between start_date (mk_datetime 2025 10 28)) (mk_state [] [] [])
    = Ok st /\
    portfolio_csv r = portfolio_snapshots st /\
    holdings_csv r = holdings_snapshots st.
Proof.
  destruct (sorted (Dict.keys (group_by_date transactions))) as [ | first_date rest ] eqn:Hs.
  - unfold main. rewrite Hs. discriminate.
  - rewrite (main_with_first _ _ _ Hs).
    destruct (strptime first_date) as [start_date | e] eqn:Hstart; [ | discriminate ].
    rewrite bind_Ok.
    destruct (date_loop_total (group_by_date transactions)
                (all_dates_between start_date (mk_datetime 2025 10 28))
                (mk_state [] [] [])) as [st Hst].
    rewrite Hst, bind_Ok. intros [= <-].
    exists start_date, st. split; [ eapply strptime_valid, Hstart | ].
    split; [ exact Hst | split; reflexivity ].
Qed.

Lemma end_date_valid : valid_date (mk_datetime 2025 10 28).
Proof. unfold valid_date. vm_compute. intuition discriminate. Qed.

(** X8.  What a run can do.  Without transactions it raises [IndexError]
    before anything is written.  Otherwise the run starts from the least
    date string among the transactions (in code-point order): if that
    string is not a date, the run raises [ValueError]; if it is, the run
    writes its records and raises nothing up to there - no division by
    zero and no missing key can occur.  The summary afterwards raises
    [IndexError] exactly when the start date is after 2025-10-28, and then
    both record collections are empty. *)
Theorem main_outcomes (transactions : list Tx.t) :
  match transactions with
  | [] => main transactions = Raise IndexError
  | _ :: _ =>
      exists first_date : string,
        In first_date (map Tx.date transactions) /\
        (forall tx, In tx transactions -> String.leb first_date (Tx.date tx) = true) /\
        match strptime first_date with
        | Raise _ => main transactions = Raise ValueError
        | Ok start_date =>
            exists r,
              main transactions = Ok r /\
              (Datetime.le start_date (mk_datetime 2025 10 28) = true ->
               summary r = Ok tt) /\
              (Datetime.le start_date (mk_datetime 2025 10 28) = false ->
               summary r = Raise IndexError /\
               portfolio_csv r = [] /\ holdings_csv r = [])
        end
  end.
Proof.
  destruct transactions as [ | tx0 txs ]; [ reflexivity | ].
  set (transactions := tx0 :: txs).
  assert (Hkeys : forall d, In d (Dict.keys (group_by_date transactions)) <->
                            exists tx, In tx transactions /\ Tx.date tx = d).
  { intros d. apply (grouping_keys transactions d). }
  destruct (sorted (Dict.keys (group_by_date transactions))) as [ | first_date rest ] eqn:Hs.
  - exfalso.
    assert (Hin : In (Tx.date tx0) (sorted (Dict.keys (group_by_date transactions)))).
    { apply sorted_In, Hkeys. exists tx0. split; [ left; reflexivity | reflexivity ]. }
    rewrite Hs in Hin. exact Hin.
  - exists first_date.
    assert (Hfirst : In first_date (Dict.keys (group_by_date transactions))).
    { apply sorted_In. rewrite Hs. left. reflexivity. }
    split; [ | split ].
    + apply Hkeys in Hfirst as (tx & Hin & <-). apply in_map, Hin.
    + intros tx Hin. apply (sorted_head _ _ _ Hs), Hkeys.
      exists tx. split; [ exact Hin | reflexivity ].
    + rewrite (main_with_first _ _ _ Hs).
      destruct (strptime first_date) as [start_date | e] eqn:Hstart.
      * rewrite bind_Ok.
        destruct (date_loop_total (group_by_date transactions)
                    (all_dates_between start_date (mk_datetime 2025 10 28))
                    (mk_state [] [] [])) as [st Hst].
        rewrite Hst, bind_Ok. eexists. split; [ reflexivity | ]. simpl.
        assert (Hv := strptime_valid _ _ Hstart).
        split.
        -- intros Hle.
           unfold all_dates_between.
           assert (Hrank := le_rank _ _ Hv end_date_valid Hle).
           destruct (Z.to_nat (rank (mk_datetime 2025 10 28) + 1 - rank start_date))
             as [ | fuel ] eqn:Hfuel; [ lia | ].
           simpl. rewrite Hle. reflexivity.
        -- intros Hle.
           rewrite (date_range_after _ _ _ Hle : all_dates_between _ _ = []) in *.
           injection Hst as <-. repeat split.
      * rewrite (strptime_error _ _ Hstart). reflexivity.
Qed.

Lemma main_outcomes_witness :
  main [] = Raise IndexError /\
  exists r, main sample_transactions = Ok r /\ summary r = Ok tt.
Proof.
  split; [ exact (main_outcomes []) | ].
  destruct (main_outcomes sample_transactions) as (first_date & Hin & _ & H).
  unfold sample_transactions in Hin. simpl in Hin.
  destruct Hin as [<- | [<- | [<- | []]]].
  - change (strptime "2025-10-23") with (Ok (mk_datetime 2025 10 23)) in H.
    destruct H as (r & Hr & Hok & _). exists r. split; [ exact Hr | apply Hok; reflexivity ].
  - change (strptime "2025-10-24") with (Ok (mk_datetime 2025 10 24)) in H.
    destruct H as (r & Hr & Hok & _). exists r. split; [ exact Hr | apply Hok; reflexivity ].
  - change (strptime "2025-10-25") with (Ok (mk_datetime 2025 10 25)) in H.
    destruct H as (r & Hr & Hok & _). exists r. split; [ exact Hr | apply Hok; reflexivity ].
Defined.

(* ================================================================== *)
(** ** The records of a run                                            *)
(* ================================================================== *)

Lemma table_prices_positive (ticker date_str : string) (price : Q) :
  table_price ticker date_str = Some price -> (0 < price)%Q.
Proof.
  assert (H : map_Forall
                (fun _ (m : gmap string Q) => map_Forall (fun _ p => Qltb 0 p = true) m)
                HISTORICAL_PRICES).
  { apply (bool_decide_unpack _). vm_compute. reflexivity. }
  unfold table_price.
  destruct (HISTORICAL_PRICES !! ticker) as [m | ] eqn:Hm; simpl.
  - intros Hp. apply Qltb_true. exact (H _ _ Hm _ _ Hp).
  - rewrite lookup_empty. discriminate.
Qed.

Lemma closing_prices_positive (fund_name date_str : string) (price : Q) :
  get_closing_price fund_name date_str = Ok (Some price) -> (0 < price)%Q.
Proof.
  rewrite get_closing_price_spec.
  destruct (FUND_TICKER_MAP !! fund_name) as [ticker | ]; [ | discriminate ].
  destruct (table_price ticker date_str) as [raw | ] eqn:Hraw; [ | discriminate ].
  apply table_prices_positive in Hraw.
  simpl. intros [= <-].
  destruct (String.eqb fund_name VOYA_FUND); [ | exact Hraw ].
  apply Qlt_shift_div_l; [ reflexivity | lra ].
Qed.

Lemma closing_price_known_fund (fund_name date_str : string) (price : Q) :
  get_closing_price fund_name date_str = Ok (Some price) ->
  is_Some (FUND_TICKER_MAP !! fund_name).
Proof.
  destruct (FUND_TICKER_MAP !! fund_name) as [ticker | ] eqn:Hlook.
  - intros _. eexists. reflexivity.
  - rewrite (get_closing_price_unknown _ _ Hlook). discriminate.
Qed.

Lemma holding_of_ok (date : string) (pos : Pos.t) (h : Holding.t) :
  pos_ok pos -> holding_of date pos = Some h -> holding_ok h.
Proof.
  intros (Hs & Hc & _) Hh.
  apply holding_of_Some in Hh as (cp & Hcp & Hheld & ->).
  unfold holding_ok. simpl.
  split; [ exact Hcp | ].
  split; [ eapply closing_prices_positive, Hcp | ].
  split; [ rewrite (Qabs_pos _ Hs) in Hheld; exact Hheld | ].
  split; [ exact Hc | ].
  split; [ reflexivity | ]. split; reflexivity.
Qed.

Lemma portfolio_snapshot_tags (date : string) (v : Valuation) (p : Portfolio.t) :
  portfolio_snapshot date v = Ok p ->
  Portfolio.snapshot_source p = "backfill" /\ Portfolio.market_status p = "closed".
Proof.
  unfold portfolio_snapshot.
  destruct (gain_loss_pct _ _) as [q | e]; [ | discriminate ].
  rewrite bind_Ok. intros [= <-]. split; reflexivity.
Qed.

Lemma process_date_run_ok (tx_by_date : Dict.dict (list Tx.t)) (st st' : State)
    (date : string) :
  run_ok st -> process_date tx_by_date st date = Ok st' -> run_ok st'.
Proof.
  intros (Hledger & Hhold & Hport). unfold process_date.
  destruct (replay (Dict.defaultdict_get tx_by_date date) (positions st))
    as [positions' | e] eqn:Hrep; [ | discriminate ].
  rewrite bind_Ok.
  assert (Hledger' : ledger_ok positions') by (eapply replay_ok; eassumption).
  destruct (value_positions_spec date positions') as (v & Hval & Hhs & _).
  rewrite Hval, bind_Ok.
  assert (Hnew : Forall holding_ok (holdings v)).
  { rewrite Hhs. apply List.Forall_forall. intros h Hin.
    apply day_holdings_In in Hin as (pos & Hpos & Hh).
    apply (holding_of_ok date pos h); [ | exact Hh ].
    unfold ledger_ok in Hledger'. rewrite List.Forall_forall in Hledger'.
    apply Hledger', Hpos. }
  destruct (holdings v) as [ | h hs ] eqn:Hv.
  - intros [= <-]. split; [ exact Hledger' | ]. split; assumption.
  - destruct (portfolio_snapshot date v) as [p | e] eqn:Hp; [ | discriminate ].
    rewrite bind_Ok. intros [= <-]. simpl.
    split; [ exact Hledger' | ]. split.
    + apply Forall_app. split; assumption.
    + apply Forall_app. split; [ exact Hport | ].
      constructor; [ eapply portfolio_snapshot_tags, Hp | constructor ].
Qed.

Lemma date_loop_run_ok (tx_by_date : Dict.dict (list Tx.t)) (dates : list string) :
  forall st st' : State,
    run_ok st -> for_each (process_date tx_by_date) dates st = Ok st' -> run_ok st'.
Proof.
  induction dates as [ | date dates IH ]; intros st st' Hok.
  - intros [= <-]. exact Hok.
  - simpl.
    destruct (process_date tx_by_date st date) as [st1 | e] eqn:Hstep; [ | discriminate ].
    rewrite bind_Ok. apply IH. eapply process_date_run_ok; eassumption.
Qed.

Lemma main_run_ok (transactions : list Tx.t) (r : RunResult) :
  main transactions = Ok r ->
  Forall holding_ok (holdings_csv r) /\
  Forall (fun p => Portfolio.snapshot_source p = "backfill"
                   /\ Portfolio.market_status p = "closed") (portfolio_csv r).
Proof.
  intros Hmain.
  destruct (main_loop _ _ Hmain) as (start_date & st & _ & Hloop & -> & ->).
  assert (Hinit : run_ok (mk_state [] [] [])).
  { split; [ apply empty_ledger_ok | split; constructor ]. }
  destruct (date_loop_run_ok _ _ _ _ Hinit Hloop) as (_ & Hh & Hp).
  split; assumption.
Qed.

(** X9.  Every holding record a run writes is priced by the oracle at its
    own date with a positive price, for a fund of the alias table; it holds
    at least 0.0001 shares at a cost basis that is not negative; its market
    value is shares times price and its gain/loss is market value minus
    cost basis; and its price source is "historical". *)
Theorem holdings_are_well_formed
    (transactions : list Tx.t) (r : RunResult) (h : Holding.t) :
  main transactions = Ok r ->
  In h (holdings_csv r) ->
  get_closing_price (Holding.fund h) (Holding.snapshot_date h)
  = Ok (Some (Holding.unit_price h)) /\
  is_Some (FUND_TICKER_MAP !! Holding.fund h) /\
  (0 < Holding.unit_price h)%Q /\
  (0.0001 <= Holding.shares h)%Q /\
  (0 <= Holding.cost_basis h)%Q /\
  (Holding.market_value h == Holding.shares h * Holding.unit_price h)%Q /\
  (Holding.gain_loss h == Holding.market_value h - Holding.cost_basis h)%Q /\
  Holding.price_source h = "historical".
Proof.
  intros Hmain Hin.
  destruct (main_run_ok _ _ Hmain) as [Hall _].
  rewrite List.Forall_forall in Hall.
  destruct (Hall h Hin) as (Hprice & Hpos & Hs & Hc & Hmv & Hgl & Hsrc).
  split; [ exact Hprice | ].
  split; [ eapply closing_price_known_fund, Hprice | ].
  repeat split; assumption.
Qed.

Lemma holdings_are_well_formed_witness :
  let h := Holding.mk "2025-10-24" "VTI" "Brokerage" 6 333.71 2002.26 1800.0 202.260
             "historical" in
  get_closing_price (Holding.fund h) (Holding.snapshot_date h)
  = Ok (Some (Holding.unit_price h)) /\
  is_Some (FUND_TICKER_MAP !! Holding.fund h) /\
  (0 < Holding.unit_price h)%Q /\
  (0.0001 <= Holding.shares h)%Q /\
  (0 <= Holding.cost_basis h)%Q /\
  (Holding.market_value h == Holding.shares h * Holding.unit_price h)%Q /\
  (Holding.gain_loss h == Holding.market_value h - Holding.cost_basis h)%Q /\
  Holding.price_source h = "historical".
Proof.
  intros h.
  apply (holdings_are_well_formed sample_transactions sample_run h).
  - vm_compute. reflexivity.
  - right. left. vm_compute. reflexivity.
Defined.

(* ------------------------------------------------------------------ *)

Lemma round_half_even_nonneg (x : Q) : (0 <= x)%Q -> (0 <= round_half_even x)%Z.
Proof.
  intros Hx. unfold round_half_even.
  assert (Hf : (0 <= Qfloor x)%Z).
  { change 0%Z with (Qfloor 0). apply Qfloor_resp_le, Hx. }
  destruct (x - inject_Z (Qfloor x) ?= 1 # 2)%Q; [ destruct (Z.even (Qfloor x)) | | ]; lia.
Qed.

Lemma py_round_nonneg (x : Q) (n : Z) : (0 <= n)%Z -> (0 <= x)%Q -> (0 <= py_round x n)%Q.
Proof.
  intros Hn Hx. unfold py_round.
  assert (Hpos : (0 < inject_Z (10 ^ n))%Q).
  { change 0%Q with (inject_Z 0). rewrite <- Zlt_Qlt. apply Z.pow_pos_nonneg; lia. }
  apply Qle_shift_div_l; [ exact Hpos | ].
  rewrite Qmult_0_l. change 0%Q with (inject_Z 0). rewrite <- Zle_Qle.
  apply round_half_even_nonneg. apply Qmult_le_0_compat; lra.
Qed.

Lemma holdings_on_ok (date : string) (hs : list Holding.t) :
  Forall holding_ok hs -> Forall holding_ok (holdings_on date hs).
Proof.
  intros Hall. apply List.Forall_forall. intros h Hin.
  unfold holdings_on in Hin. apply filter_In in Hin as [Hin _].
  rewrite List.Forall_forall in Hall. apply Hall, Hin.
Qed.

Lemma sums_of_ok_holdings (hs : list Holding.t) :
  Forall holding_ok hs ->
  (0 <= sum_market_value hs)%Q /\ (0 <= sum_cost_basis hs)%Q.
Proof.
  induction 1 as [ | h hs Hh _ IH ]; simpl.
  - split; lra.
  - destruct IH as (Hmv & Hcb).
    destruct Hh as (_ & Hprice & Hshares & Hcost & Hvalue & _).
    assert (Hnonneg : (0 <= Holding.shares h * Holding.unit_price h)%Q)
      by (apply Qmult_le_0_compat; lra).
    split; lra.
Qed.

(** X10.  Every portfolio record a run writes is tagged "backfill" and
    "closed", and its [total_market_value] and [total_cost_basis] are not
    negative. *)
Theorem portfolio_records_are_well_formed
    (transactions : list Tx.t) (r : RunResult) (p : Portfolio.t) :
  main transactions = Ok r ->
  In p (portfolio_csv r) ->
  Portfolio.snapshot_source p = "backfill" /\
  Portfolio.market_status p = "closed" /\
  (0 <= Portfolio.total_market_value p)%Q /\
  (0 <= Portfolio.total_cost_basis p)%Q.
Proof.
  intros Hmain Hin.
  destruct (main_run_ok _ _ Hmain) as [Hhold Hport].
  rewrite List.Forall_forall in Hport. destruct (Hport p Hin) as [Hsrc Hstatus].
  destruct (main_aggregates _ _ _ Hmain Hin) as (_ & _ & Hmv & Hcb & _).
  destruct (sums_of_ok_holdings _ (holdings_on_ok (Portfolio.snapshot_date p) _ Hhold))
    as (Hmv0 & Hcb0).
  split; [ exact Hsrc | ]. split; [ exact Hstatus | ].
  split.
  - rewrite Hmv. apply py_round_nonneg; [ lia | exact Hmv0 ].
  - rewrite Hcb. apply py_round_nonneg; [ lia | exact Hcb0 ].
Qed.

Lemma portfolio_records_are_well_formed_witness :
  let p := Portfolio.mk "2025-10-24" 2002.26 1800.00 202.26 11.2367 "backfill" "closed" in
  Portfolio.snapshot_source p = "backfill" /\
  Portfolio.market_status p = "closed" /\
  (0 <= Portfolio.total_market_value p)%Q /\
  (0 <= Portfolio.total_cost_basis p)%Q.
Proof.
  intros p.
  apply (portfolio_records_are_well_formed sample_transactions sample_run p).
  - vm_compute. reflexivity.
  - right. left. vm_compute. reflexivity.
Defined.

(** X11.  Through any stretch of dates of the loop, the ledger is the
    replay, date after date and within a date in input order, of the
    transactions whose date string is one of those dates; nothing else -
    no price, no record written, no transaction with another date string -
    has a part in it. *)
Theorem ledger_is_replay_by_date
    (transactions : list Tx.t) (dates : list string) (st st' : State) :
  for_each (process_date (group_by_date transactions)) dates st = Ok st' ->
  replay (flat_map (fun d => dated d transactions) dates) (positions st)
  = Ok (positions st').
Proof.
  intros Hloop. apply loop_positions in Hloop.
  rewrite (flat_map_ext (fun d => dated d transactions)
             (Dict.defaultdict_get (group_by_date transactions))).
  - exact Hloop.
  - intros d. symmetry. apply grouping_lookup.
Qed.

Lemma ledger_is_replay_by_date_witness :
  let txs := [ Tx.mk "2025-10-24" "VTI" "Brokerage" "Buy" 2 330 (-660);
               Tx.mk "2025-10-23" "VTI" "Brokerage" "Buy" 10 300 (-3000);
               Tx.mk "2025-10-9" "VTI" "Brokerage" "Buy" 1 300 (-300) ]%Q in
  replay (flat_map (fun d => dated d txs) ["2025-10-23"; "2025-10-24"]) []
  = Ok [("VTI||Brokerage", Pos.mk "VTI" "Brokerage" (0 + 10 + 2) (0 + 3000 + 660))].
Proof.
  intros txs.
  apply (ledger_is_replay_by_date txs ["2025-10-23"; "2025-10-24"]
           (mk_state [] [] [])
           (mk_state [("VTI||Brokerage", Pos.mk "VTI" "Brokerage" (0 + 10 + 2) (0 + 3000 + 660))]
              ltac:(let x := eval vm_compute in
                      (match for_each (process_date (group_by_date txs))
                               ["2025-10-23"; "2025-10-24"] (mk_state [] [] []) with
                       | Ok s => portfolio_snapshots s | Raise _ => [] end) in exact x)
              ltac:(let x := eval vm_compute in
                      (match for_each (process_date (group_by_date txs))
                               ["2025-10-23"; "2025-10-24"] (mk_state [] [] []) with
                       | Ok s => holdings_snapshots s | Raise _ => [] end) in exact x))).
  vm_compute. reflexivity.
Defined.

(* ================================================================== *)
(** ** Order of transactions and of records                            *)
(* ================================================================== *)

(** X12.  On one key the order of transactions matters.  For a key that is
    not tracked yet, a disposal applied before the first acquisition is
    ignored and the acquisition then counts in full; applied after the
    acquisition it takes effect.  The two orders leave different share
    counts. *)
Theorem same_key_order_matters (positions : Dict.dict Pos.t) (buy sell : Tx.t) :
  position_key buy = position_key sell ->
  Dict.get positions (position_key buy) = None ->
  (0 < Tx.units buy)%Q -> (Tx.units sell < 0)%Q ->
  exists p1 p2 pos1 pos2,
    replay [sell; buy] positions = Ok p1 /\
    replay [buy; sell] positions = Ok p2 /\
    Dict.get p1 (position_key buy) = Some pos1 /\
    Dict.get p2 (position_key buy) = Some pos2 /\
    (Pos.shares pos1 == Tx.units buy)%Q /\
    (Pos.cost_basis pos1 == Qabs (Tx.amount buy))%Q /\
    (Pos.shares pos2 == Qmax 0 (Tx.units buy - Qabs (Tx.units sell)))%Q /\
    (Pos.shares pos2 < Pos.shares pos1)%Q.
Proof.
  intros Hkey Hnew Hbuy Hsell.
  destruct (apply_tx_total positions sell) as [ps Hs].
  destruct (apply_tx_total ps buy) as [p1 Hsb].
  destruct (apply_tx_total positions buy) as [pb Hb].
  destruct (apply_tx_total pb sell) as [p2 Hbs].
  destruct (apply_tx_position_for _ _ _ Hs) as (a & Hua & Hga).
  destruct (apply_tx_position_for _ _ _ Hsb) as (pos1 & Hu1 & Hg1).
  destruct (apply_tx_position_for _ _ _ Hb) as (b & Hub & Hgb).
  destruct (apply_tx_position_for _ _ _ Hbs) as (pos2 & Hu2 & Hg2).
  (* the disposal first: nothing to dispose of *)
  unfold position_for in Hua. rewrite <- Hkey, Hnew in Hua.
  rewrite update_position_noop in Hua by (simpl; lra || (right; lra)).
  injection Hua as <-.
  unfold position_for in Hu1. rewrite Hkey, Hga in Hu1.
  rewrite (update_position_acquire _ _ _ Hbuy) in Hu1. injection Hu1 as <-.
  (* the acquisition first: the disposal finds shares *)
  unfold position_for in Hub. rewrite Hnew in Hub.
  rewrite (update_position_acquire _ _ _ Hbuy) in Hub. injection Hub as <-.
  unfold position_for in Hu2. rewrite <- Hkey, Hgb in Hu2.
  rewrite update_position_dispose in Hu2 by (simpl; lra). injection Hu2 as <-.
  exists p1, p2. do 2 eexists.
  split; [ rewrite replay_cons, Hs, bind_Ok, replay_cons, Hsb; reflexivity | ].
  split; [ rewrite replay_cons, Hb, bind_Ok, replay_cons, Hbs; reflexivity | ].
  split; [ exact Hg1 | ]. split; [ rewrite Hkey; exact Hg2 | ].
  simpl.
  assert (Habs : (0 < Qabs (Tx.units sell))%Q).
  { rewrite Qabs_neg by lra. lra. }
  split; [ lra | ]. split; [ lra | ].
  split.
  - rewrite py_max_Qmax. apply Q.max_compat; [ reflexivity | lra ].
  - unfold py_max. case_Qltb 0%Q (0 + Tx.units buy - Qabs (Tx.units sell))%Q as E; lra.
Qed.

Lemma same_key_order_matters_witness :
  let buy := Tx.mk "2025-09-02" "VTI" "Brokerage" "Buy" 10 300 (-3000) in
  let sell := Tx.mk "2025-09-02" "VTI" "Brokerage" "Sell" (-4) 320 1280 in
  exists p1 p2 pos1 pos2,
    replay [sell; buy] [] = Ok p1 /\
    replay [buy; sell] [] = Ok p2 /\
    Dict.get p1 (position_key buy) = Some pos1 /\
    Dict.get p2 (position_key buy) = Some pos2 /\
    (Pos.shares pos1 == Tx.units buy)%Q /\
    (Pos.cost_basis pos1 == Qabs (Tx.amount buy))%Q /\
    (Pos.shares pos2 == Qmax 0 (Tx.units buy - Qabs (Tx.units sell)))%Q /\
    (Pos.shares pos2 < Pos.shares pos1)%Q.
Proof.
  intros buy sell.
  apply (same_key_order_matters [] buy sell); reflexivity.
Defined.

(* ------------------------------------------------------------------ *)

Lemma date_loop_portfolio_dates (tx_by_date : Dict.dict (list Tx.t)) (dates : list string) :
  forall st st' : State,
    for_each (process_date tx_by_date) dates st = Ok st' ->
    exists ps,
      portfolio_snapshots st' = portfolio_snapshots st ++ ps /\
      sublist (map Portfolio.snapshot_date ps) dates.
Proof.
  induction dates as [ | date dates IH ]; intros st st'.
  - intros [= <-]. exists []. split; [ rewrite app_nil_r; reflexivity | constructor ].
  - simpl for_each.
    destruct (process_date_spec tx_by_date st date)
      as (positions' & hs & _ & _ & [[_ Hrun] | (_ & p & Hp & _ & Hrun)]);
      rewrite Hrun, bind_Ok; intros Hloop;
      destruct (IH _ _ Hloop) as (ps & Heq & Hsub); simpl in Heq.
    + exists ps. split; [ exact Heq | apply sublist_cons, Hsub ].
    + exists (p :: ps). split.
      * rewrite Heq, <- app_assoc. reflexivity.
      * simpl. rewrite Hp. apply sublist_skip, Hsub.
Qed.

(** X13.  The portfolio records of a run are written in calendar order with
    at most one record per date: their dates form a sub-sequence of the
    dates of the loop, which start at a calendar date and do not repeat. *)
Theorem portfolio_records_follow_the_calendar
    (transactions : list Tx.t) (r : RunResult) :
  main transactions = Ok r ->
  List.NoDup (map Portfolio.snapshot_date (portfolio_csv r)) /\
  exists start_date : datetime,
    valid_date start_date /\
    sublist (map Portfolio.snapshot_date (portfolio_csv r))
            (all_dates_between start_date (mk_datetime 2025 10 28)).
Proof.
  intros Hmain.
  destruct (main_loop _ _ Hmain) as (start_date & st & Hv & Hloop & -> & _).
  destruct (date_loop_portfolio_dates _ _ _ _ Hloop) as (ps & Heq & Hsub).
  simpl in Heq. subst ps.
  split.
  - apply NoDup_ListNoDup. eapply sublist_NoDup; [ | exact Hsub ].
    apply NoDup_ListNoDup, all_dates_between_NoDup; [ exact Hv | simpl; lia ].
  - exists start_date. split; assumption.
Qed.

Lemma portfolio_records_follow_the_calendar_witness :
  List.NoDup (map Portfolio.snapshot_date (portfolio_csv sample_run)) /\
  exists start_date : datetime,
    valid_date start_date /\
    sublist (map Portfolio.snapshot_date (portfolio_csv sample_run))
            (all_dates_between start_date (mk_datetime 2025 10 28)).
Proof.
  apply (portfolio_records_follow_the_calendar sample_transactions sample_run).
  vm_compute. reflexivity.
Defined.

(** X14.  In exact (rational) arithmetic, a position of the ledger that has
    been sold out starts afresh when it is bought again: with 0 shares
    left, an acquisition leaves exactly the acquired units at a cost basis
    of the absolute amount, so the average cost is that of the new purchase
    alone.  (On binary64 numbers the rounding residue of the sale is carried
    into the new basis, see [selling_out_leaves_a_residue].) *)
Theorem reacquisition_starts_afresh
    (txs : list Tx.t) (positions : Dict.dict Pos.t) (k : string)
    (pos : Pos.t) (u amount : Q) :
  replay txs [] = Ok positions ->
  Dict.get positions k = Some pos ->
  (Pos.shares pos == 0)%Q ->
  (0 < u)%Q ->
  exists pos',
    update_position pos u amount = Ok pos' /\
    (Pos.shares pos' == u)%Q /\
    (Pos.cost_basis pos' == Qabs amount)%Q /\
    (Pos.cost_basis pos' / Pos.shares pos' == Qabs amount / u)%Q.
Proof.
  intros Hrun Hget Hzero Hu.
  destruct (reachable_pos_ok txs positions k pos Hrun Hget) as (_ & _ & Hbasis).
  specialize (Hbasis Hzero).
  eexists. split; [ apply update_position_acquire, Hu | ]. simpl.
  assert (Hs : (Pos.shares pos + u == u)%Q) by lra.
  assert (Hc : (Pos.cost_basis pos + Qabs amount == Qabs amount)%Q) by lra.
  split; [ exact Hs | ]. split; [ exact Hc | ].
  rewrite Hs, Hc. reflexivity.
Qed.

Lemma reacquisition_starts_afresh_witness :
  exists pos',
    update_position (Pos.mk "VTI" "Brokerage" 0 0) 3 (-990) = Ok pos' /\
    (Pos.shares pos' == 3)%Q /\
    (Pos.cost_basis pos' == Qabs (-990))%Q /\
    (Pos.cost_basis pos' / Pos.shares pos' == Qabs (-990) / 3)%Q.
Proof.
  apply (reacquisition_starts_afresh
           [ Tx.mk "2025-09-02" "VTI" "Brokerage" "Buy" 10 300 (-3000);
             Tx.mk "2025-09-03" "VTI" "Brokerage" "Sell" (-10) 320 3200 ]%Q
           [("VTI||Brokerage", Pos.mk "VTI" "Brokerage" 0 0)]
           "VTI||Brokerage").
  - vm_compute. reflexivity.
  - reflexivity.
  - reflexivity.
  - reflexivity.
Defined.

(* ================================================================== *)
(** ** When keys keep pairs apart                                      *)
(* ================================================================== *)

(** X15.  Two transactions with different (fund, money_source) pairs have
    different keys, and so work on different positions, whenever in both
    fund names every ["|"] is followed by a character other than ["|"].
    The condition is exact: every transaction of a fund whose name contains
    ["||"] or ends in ["|"] shares its key with a transaction of another
    pair.  All names of the alias table satisfy the condition. *)
Theorem names_with_inner_bars_keep_pairs_apart :
  (forall tx1 tx2 : Tx.t,
      bars_are_inner (Tx.fund tx1) = true -> bars_are_inner (Tx.fund tx2) = true ->
      (Tx.fund tx1, Tx.money_source tx1) <> (Tx.fund tx2, Tx.money_source tx2) ->
      position_key tx1 <> position_key tx2 /\
      forall positions positions' : Dict.dict Pos.t,
        apply_tx positions tx2 = Ok positions' ->
        Dict.get positions' (position_key tx1) = Dict.get positions (position_key tx1))
  /\
  (forall tx : Tx.t,
      bars_are_inner (Tx.fund tx) = false ->
      exists tx' : Tx.t,
        (Tx.fund tx', Tx.money_source tx') <> (Tx.fund tx, Tx.money_source tx) /\
        position_key tx' = position_key tx)
  /\
  (forall fund_name ticker : string,
      FUND_TICKER_MAP !! fund_name = Some ticker -> bars_are_inner fund_name = true).
Proof.
  split; [ | split ].
  - intros tx1 tx2 H1 H2 Hne.
    assert (Hkey : position_key tx1 <> position_key tx2).
    { intros Hkey. apply Hne. unfold position_key in Hkey.
      destruct (inner_bars_split _ _ _ _ H1 H2 Hkey) as [-> ->]. reflexivity. }
    split; [ exact Hkey | ].
    intros positions positions' Happly.
    eapply apply_tx_other; [ exact Happly | ].
    intros Heq. apply Hkey. symmetry. exact Heq.
  - intros tx Hinner.
    destruct (outer_bar_collides _ Hinner) as (f' & pre & Hne & Hkey).
    exists (Tx.mk (Tx.date tx) f' (String.append pre (Tx.money_source tx))
              (Tx.activity tx) (Tx.units tx) (Tx.unit_price tx) (Tx.amount tx)).
    split.
    + simpl. intros [= Hf _]. exact (Hne Hf).
    + unfold position_key. simpl. symmetry. apply Hkey.
  - exact alias_names_have_inner_bars.
Qed.

Lemma names_with_inner_bars_keep_pairs_apart_witness :
  let tx1 := Tx.mk "2025-09-02" "VTI" "Brokerage" "Buy" 10 300 (-3000) in
  let tx2 := Tx.mk "2025-09-02" "A|B" "Brokerage" "Buy" 2 300 (-600) in
  position_key tx1 <> position_key tx2 /\
  exists tx' : Tx.t,
    (Tx.fund tx', Tx.money_source tx')
    <> ("A||B", "C") /\
    position_key tx'
    = position_key (Tx.mk "2025-09-02" "A||B" "C" "Buy" 2 100 (-200)).
Proof.
  intros tx1 tx2. split.
  - apply (proj1 names_with_inner_bars_keep_pairs_apart tx1 tx2).
    + reflexivity.
    + reflexivity.
    + simpl. discriminate.
  - apply (proj1 (proj2 names_with_inner_bars_keep_pairs_apart)
             (Tx.mk "2025-09-02" "A||B" "C" "Buy" 2 100 (-200))).
    reflexivity.
Defined.
